(** * GoInject: a type-keyed service container

    A shallow embedding of [container.go] (the [Container] with its methods
    [New], [RegisterFactory], [Register], [Get], [GetValue]) and of the generic
    helpers [Get[T]], [GetValue[T]], [MustGet[T]], together with the part of
    Go's [reflect] package those functions call.

    Go values of static type [any] are pairs of a dynamic type and a data word;
    pointers are addresses into an explicit heap, so that "the same instance"
    is equality of addresses.  Methods are computations in a state monad whose
    outcome is either a normal return or a panic.

    Scope of the model: a [Container] is one made by [New] (its maps are
    allocated); a registered function runs on the heap and does not call back
    into the container; a sequential client either stops at the first panic
    ([run]) or recovers from every panic and goes on ([run_all]); values of
    func type are not stored in heap cells. *)

From Stdlib Require Import ZArith.
From stdpp Require Import gmap strings list fin_maps countable.

Set Warnings "-register-all".
Open Scope Z_scope.
Open Scope nat_scope.

(** ** Go types, as [reflect.Type] identifies them *)

Inductive gotype : Type :=
| BoolT
| IntT
| StringT
| StructT (name : string) (fields : list gotype)
| InterfaceT (name : string)
| SliceT (elem : gotype)
| PtrT (elem : gotype)
| FuncT (ins outs : list gotype).

(** The induction principle that reaches the types inside a signature. *)
Section gotype_nested_ind.
Variable P : gotype -> Prop.
Hypothesis HBool : P BoolT.
Hypothesis HInt : P IntT.
Hypothesis HString : P StringT.
Hypothesis HStruct : forall n fs, Forall P fs -> P (StructT n fs).
Hypothesis HInterface : forall n, P (InterfaceT n).
Hypothesis HSlice : forall e, P e -> P (SliceT e).
Hypothesis HPtr : forall e, P e -> P (PtrT e).
Hypothesis HFunc : forall ins outs,
    Forall P ins -> Forall P outs -> P (FuncT ins outs).

Fixpoint gotype_nested_ind (t : gotype) : P t :=
  let fix all (ts : list gotype) : Forall P ts :=
    match ts with
    | [] => Forall_nil_2 P
    | t :: ts => Forall_cons_2 P t ts (gotype_nested_ind t) (all ts)
    end in
  match t with
  | BoolT => HBool
  | IntT => HInt
  | StringT => HString
  | StructT n fs => HStruct n fs (all fs)
  | InterfaceT n => HInterface n
  | SliceT e => HSlice e (gotype_nested_ind e)
  | PtrT e => HPtr e (gotype_nested_ind e)
  | FuncT ins outs => HFunc ins outs (all ins) (all outs)
  end.
End gotype_nested_ind.

(** Type identity is decidable and types are countable (through an encoding
    into [gen_tree]), which is what a Go map keyed by [reflect.Type] needs. *)
Fixpoint gotype_encode (t : gotype) : gen_tree string :=
  match t with
  | BoolT => GenNode 0 []
  | IntT => GenNode 1 []
  | StringT => GenNode 2 []
  | StructT n fs => GenNode 3 [GenLeaf n; GenNode 0 (map gotype_encode fs)]
  | InterfaceT n => GenNode 4 [GenLeaf n]
  | SliceT e => GenNode 5 [gotype_encode e]
  | PtrT e => GenNode 6 [gotype_encode e]
  | FuncT ins outs =>
      GenNode 7 [GenNode 0 (map gotype_encode ins);
                 GenNode 0 (map gotype_encode outs)]
  end.

Fixpoint gotype_decode (g : gen_tree string) : gotype :=
  match g with
  | GenNode 1 [] => IntT
  | GenNode 2 [] => StringT
  | GenNode 3 [GenLeaf n; GenNode 0 fs] => StructT n (map gotype_decode fs)
  | GenNode 4 [GenLeaf n] => InterfaceT n
  | GenNode 5 [e] => SliceT (gotype_decode e)
  | GenNode 6 [e] => PtrT (gotype_decode e)
  | GenNode 7 [GenNode 0 ins; GenNode 0 outs] =>
      FuncT (map gotype_decode ins) (map gotype_decode outs)
  | _ => BoolT
  end.

Lemma gotype_decode_encode t : gotype_decode (gotype_encode t) = t.
Proof.
  assert (Hmap : forall ts : list gotype,
             Forall (fun t => gotype_decode (gotype_encode t) = t) ts ->
             map gotype_decode (map gotype_encode ts) = ts).
  { induction 1 as [|x xs Hx _ IH]; simpl; congruence. }
  induction t using gotype_nested_ind; simpl; try congruence.
  - f_equal; auto.
  - f_equal; auto.
Qed.

#[global] Instance gotype_eq_dec : EqDecision gotype.
Proof.
  refine (fun x y =>
    match decide (gotype_encode x = gotype_encode y) with
    | left e => left _
    | right n => right _
    end).
  - rewrite <- (gotype_decode_encode x), <- (gotype_decode_encode y).
    now rewrite e.
  - intros ->. now apply n.
Defined.

#[global] Instance gotype_countable : Countable gotype :=
  inj_countable' gotype_encode gotype_decode gotype_decode_encode.

(** ** Values, the heap and the outcome of a call *)

(** The five sentinel errors of [container.go]; a returned Go [error] is an
    [option error], [None] being [nil]. *)
Inductive error : Type :=
| ErrServiceNotFound
| ErrFactoryMustBeAFunction
| ErrFactoryMustReturnOneValue
| ErrFactoryMustTakeNoArguments
| ErrOutputMustBeAPointer.

#[global] Instance error_eq_dec : EqDecision error.
Proof. solve_decision. Defined.

(** What a panic carries: the error given to [panic(err)], or a run-time
    error raised by the Go runtime or by [reflect]. *)
Inductive panic_value : Type :=
| PanicError (e : error)
| PanicRuntime (msg : string).

Inductive outcome (A : Type) : Type :=
| Returns (a : A)
| Panics (p : panic_value).
Arguments Returns {A} a.
Arguments Panics {A} p.

Abbreviation addr := positive.

(** The data word of a value.  [DPtr None] is a nil pointer; [DNil] is the
    nil of the interface, slice and func kinds. *)
Inductive data : Type :=
| DBool (b : bool)
| DInt (z : Z)
| DString (s : string)
| DPtr (p : option addr)
| DStruct (fields : list data)
| DNil.

Abbreviation Heap := (gmap addr data).

(** The body of a Go function taking no arguments: it runs on the heap and
    returns its raw results or panics.  Bodies do not call back into the
    container they are registered in. *)
Abbreviation fbody := (Heap -> outcome (list data) * Heap).

(** A value with its dynamic type: a data word tagged with its type, or a
    function value (a nil function has no body). *)
Inductive typed : Type :=
| Data (t : gotype) (d : data)
| Fn (ins outs : list gotype) (body : option fbody).

(** A Go [any]: [None] is the nil interface. *)
Abbreviation any := (option typed).
Abbreviation Nil := (@None typed).

(** A Go [func() any]. *)
Abbreviation thunk := (Heap -> outcome any * Heap).

(** The zero value of a type, as [var out T] creates it. *)
Fixpoint zero (t : gotype) : data :=
  match t with
  | BoolT => DBool false
  | IntT => DInt 0%Z
  | StringT => DString ""
  | StructT _ fs => DStruct (map zero fs)
  | PtrT _ => DPtr None
  | InterfaceT _ | SliceT _ | FuncT _ _ => DNil
  end.

(** ** The container and the state its methods run on *)

(** [type Container struct { factories; providers; mu }].  The [RWMutex] is
    its count of read holders: no method of the package ever takes the write
    lock, so [RLock] never blocks. *)
Record Container : Type := mkContainer {
  factories : gmap gotype thunk;
  providers : gmap gotype any;
  mu : nat;
}.

(** The receiver, the heap, and a ghost log of the keys whose factory was
    invoked (newest first), kept to count invocations. *)
Record World : Type := mkWorld {
  recv : Container;
  heap : Heap;
  calls : list gotype;
}.

(** Computations on a state [S] that return or panic.  Function bodies and
    [reflect] run on the heap ([H]); the container's methods run on the whole
    [World] ([M]). *)
Definition St (S A : Type) : Type := S -> outcome A * S.
Abbreviation H := (St Heap).
Abbreviation M := (St World).

Definition ret {S A} (a : A) : St S A := fun s => (Returns a, s).

Definition bind {S A B} (m : St S A) (k : A -> St S B) : St S B := fun s =>
  match m s with
  | (Returns a, s') => k a s'
  | (Panics p, s') => (Panics p, s')
  end.

Definition panic {S A} (p : panic_value) : St S A := fun s => (Panics p, s).

(** [defer d] before [body]: [d] runs when [body] returns and when it
    panics. *)
Definition defer {S A} (d : St S unit) (body : St S A) : St S A := fun s =>
  let '(r, s1) := body s in
  let '(_, s2) := d s1 in
  (r, s2).

Declare Scope go_scope.
Delimit Scope go_scope with go.
Notation "x <- m ;; k" := (bind m (fun x => k))
  (at level 100, m at next level, right associativity) : go_scope.
Notation "m ;;; k" := (bind m (fun _ => k))
  (at level 100, right associativity) : go_scope.
Open Scope go_scope.

(** A heap computation run from a method. *)
Definition on_heap {A} (m : H A) : M A := fun w =>
  let '(r, h) := m (heap w) in
  (r, mkWorld (recv w) h (calls w)).

Definition with_recv (f : Container -> Container) : M unit := fun w =>
  (Returns tt, mkWorld (f (recv w)) (heap w) (calls w)).

Definition RLock : M unit :=
  with_recv (fun c => mkContainer (factories c) (providers c) (S (mu c))).

Definition RUnlock : M unit :=
  with_recv (fun c => mkContainer (factories c) (providers c) (pred (mu c))).

(** [v, ok := c.providers[k]] *)
Definition load_provider (k : gotype) : M (option any) := fun w =>
  (Returns (providers (recv w) !! k), w).

(** [c.providers[k] = v] *)
Definition store_provider (k : gotype) (v : any) : M unit :=
  with_recv (fun c => mkContainer (factories c) (<[k := v]> (providers c)) (mu c)).

(** [c.factories[k]]: [None] is the nil function a missing key reads as; the
    only writer, [RegisterFactory], never stores nil. *)
Definition load_factory (k : gotype) : M (option thunk) := fun w =>
  (Returns (factories (recv w) !! k), w).

(** [c.factories[k] = f] *)
Definition store_factory (k : gotype) (f : thunk) : M unit :=
  with_recv (fun c => mkContainer (<[k := f]> (factories c)) (providers c) (mu c)).

(** [factory()] for the factory stored under [k]; the call is logged. *)
Definition invoke (k : gotype) (f : thunk) : M any := fun w =>
  let '(r, h) := f (heap w) in
  (r, mkWorld (recv w) h (k :: calls w)).

(** The address of a fresh variable holding [d]. *)
Definition alloc (d : data) : H addr := fun h =>
  let a := fresh (dom h) in (Returns a, <[a := d]> h).

(** ** The part of package [reflect] the container uses *)

Module reflect.

Inductive Kind : Type :=
| Invalid | Bool | Int | String | Struct | Interface | Slice | Ptr | Func.

#[global] Instance Kind_eq_dec : EqDecision Kind.
Proof. solve_decision. Defined.

(** [reflect.Type] as a Go interface value: [None] is the nil [Type] that
    [TypeOf(nil)] returns. *)
Abbreviation Type_ := (option gotype).

Definition kind_of (t : gotype) : Kind :=
  match t with
  | BoolT => Bool
  | IntT => Int
  | StringT => String
  | StructT _ _ => Struct
  | InterfaceT _ => Interface
  | SliceT _ => Slice
  | PtrT _ => Ptr
  | FuncT _ _ => Func
  end.

Definition type_of (v : typed) : gotype :=
  match v with
  | Data t _ => t
  | Fn ins outs _ => FuncT ins outs
  end.

(** [reflect.TypeOf(i)] *)
Definition TypeOf (i : any) : Type_ := type_of <$> i.

Definition nil_dereference : panic_value :=
  PanicRuntime "invalid memory address or nil pointer dereference".

(** [t.Kind()]: a method call on the nil [Type] panics. *)
Definition Type_Kind {S} (t : Type_) : St S Kind :=
  match t with
  | None => panic nil_dereference
  | Some t => ret (kind_of t)
  end.

(** [t.NumIn()], [t.NumOut()], [t.Out(i)]: each panics unless [t] is a
    function type. *)
Definition Type_NumIn {S} (t : gotype) : St S nat :=
  match t with
  | FuncT ins _ => ret (length ins)
  | _ => panic (PanicRuntime "reflect: NumIn of non-func type")
  end.

Definition Type_NumOut {S} (t : gotype) : St S nat :=
  match t with
  | FuncT _ outs => ret (length outs)
  | _ => panic (PanicRuntime "reflect: NumOut of non-func type")
  end.

Definition Type_Out {S} (t : gotype) (i : nat) : St S gotype :=
  match t with
  | FuncT _ outs =>
      match outs !! i with
      | Some o => ret o
      | None => panic (PanicRuntime "reflect: Func index out of bounds")
      end
  | _ => panic (PanicRuntime "reflect: Out of non-func type")
  end.

(** [reflect.Value]: the zero Value, a value held directly, or the variable
    an address designates (addressable and settable). *)
Inductive Value : Type :=
| Zero
| Direct (v : typed)
| Deref (t : gotype) (a : addr).

(** [reflect.ValueOf(i)] *)
Definition ValueOf (i : any) : Value :=
  match i with
  | None => Zero
  | Some v => Direct v
  end.

(** [v.Type()] *)
Definition Value_Type {S} (v : Value) : St S gotype :=
  match v with
  | Zero => panic (PanicRuntime "reflect: call of reflect.Value.Type on zero Value")
  | Direct v => ret (type_of v)
  | Deref t _ => ret t
  end.

(** [v.Interface()] *)
Definition Value_Interface (v : Value) : H any :=
  match v with
  | Zero => panic (PanicRuntime "reflect: call of reflect.Value.Interface on zero Value")
  | Direct v => ret (Some v)
  | Deref t a => fun h =>
      match h !! a with
      | Some d => (Returns (Some (Data t d)), h)
      | None => (Panics nil_dereference, h)
      end
  end.

(** [v.Call(nil)]: the results are Values of the declared result types. *)
Definition Value_Call (v : Value) : H (list Value) :=
  match v with
  | Direct (Fn [] outs (Some body)) =>
      raw <- body ;;
      ret (zip_with (fun t d => Direct (Data t d)) outs raw)
  | Direct (Fn [] _ None) =>
      panic (PanicRuntime "reflect: call of nil function")
  | Direct (Fn (_ :: _) _ _) =>
      panic (PanicRuntime "reflect: Call with too few input arguments")
  | _ => panic (PanicRuntime "reflect: call of reflect.Value.Call on non-func Value")
  end.

(** [rs[i]] *)
Definition index {S A} (rs : list A) (i : nat) : St S A :=
  match rs !! i with
  | Some r => ret r
  | None => panic (PanicRuntime "index out of range")
  end.

(** [v.Elem()] of a Value obtained from [ValueOf]: the variable a pointer
    points to, the zero Value for a nil pointer, a panic for every kind
    other than pointer (an [any] never holds a value of interface kind). *)
Definition Value_Elem {S} (v : Value) : St S Value :=
  match v with
  | Direct (Data (PtrT e) (DPtr (Some a))) => ret (Deref e a)
  | Direct (Data (PtrT e) (DPtr None)) => ret Zero
  | _ => panic (PanicRuntime "reflect: call of reflect.Value.Elem on non-pointer Value")
  end.

(** [v.Set(x)] for [x] obtained from [Elem]: [v] must be settable, [x]
    valid and of [v]'s type (identical types are assignable; the implicit
    conversion into an interface-typed variable is not modelled).  The
    contents of the variable [x] designates are copied into the one [v]
    designates. *)
Definition Value_Set (v x : Value) : H unit :=
  match v, x with
  | Deref t a, Deref t' a' => fun h =>
      if decide (t' = t) then
        match h !! a', h !! a with
        | Some d, Some _ => (Returns tt, <[a := d]> h)
        | _, _ => (Panics nil_dereference, h)
        end
      else (Panics (PanicRuntime "reflect.Set: value is not assignable"), h)
  | Deref t a, Direct (Data t' d) => fun h =>
      if decide (t' = t) then
        match h !! a with
        | Some _ => (Returns tt, <[a := d]> h)
        | None => (Panics nil_dereference, h)
        end
      else (Panics (PanicRuntime "reflect.Set: value is not assignable"), h)
  | Deref _ _, Direct (Fn _ _ _) =>
      panic (PanicRuntime "reflect.Set: value is not assignable")
  | Deref _ _, Zero =>
      panic (PanicRuntime "reflect: call of reflect.Value.Set on zero Value")
  | Zero, _ =>
      panic (PanicRuntime "reflect: call of reflect.Value.Set on zero Value")
  | Direct _, _ =>
      panic (PanicRuntime "reflect: reflect.Value.Set using unaddressable value")
  end.

End reflect.

(** ** [container.go] *)

Module container.

(** [func New() *Container] *)
Definition New : Container := mkContainer ∅ ∅ 0.

(** The closure [func() any { return factoryValue.Call(nil)[0].Interface() }]
    that [RegisterFactory] stores. *)
Definition wrapper (factoryValue : reflect.Value) : thunk :=
  rs <- reflect.Value_Call factoryValue ;;
  r <- reflect.index rs 0 ;;
  reflect.Value_Interface r.

(** [func (c *Container) RegisterFactory(factory any) error] *)
Definition RegisterFactory (factory : any) : M (option error) :=
  RLock ;;;
  defer RUnlock (
    let factoryValue := reflect.ValueOf factory in
    factoryType <- reflect.Value_Type factoryValue ;;
    k <- reflect.Type_Kind (Some factoryType) ;;
    if decide (k ≠ reflect.Func) then ret (Some ErrFactoryMustBeAFunction) else
    numIn <- reflect.Type_NumIn factoryType ;;
    if decide (numIn ≠ 0) then ret (Some ErrFactoryMustTakeNoArguments) else
    numOut <- reflect.Type_NumOut factoryType ;;
    if decide (numOut ≠ 1) then ret (Some ErrFactoryMustReturnOneValue) else
    typeof <- reflect.Type_Out factoryType 0 ;;
    k <- reflect.Type_Kind (Some typeof) ;;
    if decide (k ≠ reflect.Ptr) then ret (Some ErrOutputMustBeAPointer) else
    store_factory typeof (wrapper factoryValue) ;;;
    ret None).

(** [func (c *Container) Register(service any) error] *)
Definition Register (service : any) : M (option error) :=
  let typeof := reflect.TypeOf service in
  k <- reflect.Type_Kind typeof ;;
  if decide (k ≠ reflect.Ptr) then ret (Some ErrOutputMustBeAPointer) else
  RLock ;;;
  defer RUnlock (
    match typeof with
    | Some typeof => store_provider typeof service
    | None => panic reflect.nil_dereference
    end ;;;
    ret None).

(** [func (c *Container) Get(out any) (any, error)].  The two [if !ok]
    blocks of the source are the [None] branch of the lookup: the factory
    call, then the write into [c.providers]. *)
Definition Get (out : any) : M (any * option error) :=
  let typeof := reflect.TypeOf out in
  k <- reflect.Type_Kind typeof ;;
  if decide (k ≠ reflect.Ptr) then ret (Nil, Some ErrOutputMustBeAPointer) else
  match typeof with
  | None => panic reflect.nil_dereference
  | Some typeof =>
      RLock ;;;
      defer RUnlock (
        found <- load_provider typeof ;;
        match found with
        | Some service => ret (service, None)
        | None =>
            factory <- load_factory typeof ;;
            match factory with
            | Some factory =>
                service <- invoke typeof factory ;;
                store_provider typeof service ;;;
                ret (service, None)
            | None => ret (Nil, Some ErrServiceNotFound)
            end
        end)
  end.

(** [func (c *Container) GetValue(out any) error] *)
Definition GetValue (out : any) : M (option error) :=
  r <- Get out ;;
  let '(service, err) := r in
  match err with
  | Some err => ret (Some err)
  | None =>
      servicePtr <- reflect.Value_Elem (reflect.ValueOf service) ;;
      setOutValue <- reflect.Value_Elem (reflect.ValueOf out) ;;
      on_heap (reflect.Value_Set setOutValue servicePtr) ;;;
      ret None
  end.

End container.

(** ** The generic helpers *)

(** The type assertion of [v] to [*T]: it holds when the dynamic type of [v] is
    exactly [*T], and yields the pointer. *)
Definition assert_ptr (v : any) (T : gotype) : option data :=
  match v with
  | Some (Data t d) => if decide (t = PtrT T) then Some d else None
  | _ => None
  end.

(** A [*T] converted to [any]. *)
Definition pointer (T : gotype) (p : option addr) : any :=
  Some (Data (PtrT T) (DPtr p)).

(** [func Get[T any](c *Container) ( *T, error)] *)
Definition Get (T : gotype) : M (data * option error) :=
  out <- on_heap (alloc (zero T)) ;;
  r <- container.Get (pointer T (Some out)) ;;
  let '(v, err) := r in
  match err with
  | Some err => ret (DPtr None, Some err)
  | None =>
      match assert_ptr v T with
      | Some o => ret (o, None)
      | None => ret (DPtr None, Some ErrOutputMustBeAPointer)
      end
  end.

(** [func GetValue[T any](c *Container, out *T) error] *)
Definition GetValue (T : gotype) (out : option addr) : M (option error) :=
  container.GetValue (pointer T out).

(** [func MustGet[T any](c *Container) *T] *)
Definition MustGet (T : gotype) : M data :=
  r <- Get T ;;
  let '(v, err) := r in
  match err with
  | Some err => panic (PanicError err)
  | None => ret v
  end.

(** ** Sequential client programs *)

(** The worlds the methods produce, written out. *)
Definition set_provider (k : gotype) (v : any) (w : World) : World :=
  mkWorld (mkContainer (factories (recv w)) (<[k := v]> (providers (recv w)))
             (mu (recv w)))
          (heap w) (calls w).

Definition set_factory (k : gotype) (f : thunk) (w : World) : World :=
  mkWorld (mkContainer (<[k := f]> (factories (recv w))) (providers (recv w))
             (mu (recv w)))
          (heap w) (calls w).

Definition set_heap (h : Heap) (w : World) : World :=
  mkWorld (recv w) h (calls w).

Definition log_call (k : gotype) (w : World) : World :=
  mkWorld (recv w) (heap w) (k :: calls w).

(** How often the factory stored under [k] has been invoked. *)
Definition invocations (k : gotype) (w : World) : nat :=
  count_occ gotype_eq_dec (calls w) k.

(** One step of a client of the container: a call of one of the four
    methods, or code of the client's own that changes the heap. *)
Inductive op : Type :=
| CallRegister (service : any)
| CallRegisterFactory (factory : any)
| CallGet (out : any)
| CallGetValue (out : any)
| Mutate (f : Heap -> Heap).

Inductive reply : Type :=
| Err (e : option error)
| Got (service : any) (e : option error)
| Done.

Definition step (o : op) : M reply :=
  match o with
  | CallRegister service => e <- container.Register service ;; ret (Err e)
  | CallRegisterFactory factory => e <- container.RegisterFactory factory ;; ret (Err e)
  | CallGet out => r <- container.Get out ;; ret (Got (fst r) (snd r))
  | CallGetValue out => e <- container.GetValue out ;; ret (Err e)
  | Mutate f => fun w => (Returns Done, set_heap (f (heap w)) w)
  end.

(** A program runs its steps in order; a panic ends the run. *)
Fixpoint run (p : list op) : M (list reply) :=
  match p with
  | [] => ret []
  | o :: p => r <- step o ;; rs <- run p ;; ret (r :: rs)
  end.



(** The step registers an instance under key [k]. *)
Definition registers (k : gotype) (o : op) : Prop :=
  match o with
  | CallRegister service => reflect.TypeOf service = Some k
  | _ => False
  end.

(** The step is a [Get] for key [k]. *)
Definition gets (k : gotype) (o : op) : Prop :=
  match o with
  | CallGet out => reflect.TypeOf out = Some k
  | _ => False
  end.

(** ** Dynamic types of what the container holds *)

(** Every instance is stored under its own dynamic type, and every stored
    factory returns values of the type it is stored under. *)
Definition providers_typed (c : Container) : Prop :=
  forall k v, providers c !! k = Some v -> reflect.TypeOf v = Some k.

Definition factories_typed (c : Container) : Prop :=
  forall k f h v h', factories c !! k = Some f -> f h = (Returns v, h') ->
                     reflect.TypeOf v = Some k.

Definition well_typed (c : Container) : Prop :=
  providers_typed c /\ factories_typed c.

(** The worlds a client reaches from a container made by [New]. *)
Inductive reachable : World -> Prop :=
| reach_New h : reachable (mkWorld container.New h [])
| reach_step w o : reachable w -> reachable (snd (step o w)).

(** ** [Get] called from several goroutines *)

(** Where a goroutine stands inside [Container.Get].  Between two points it
    performs one access to the shared container; [RLock] admits any number of
    holders at once, so every interleaving of these steps is an execution. *)
Inductive pc : Type :=
| AtEntry (out : any)
| AtLookup (k : gotype)
| AtFactory (k : gotype)
| AtStore (k : gotype) (service : any)
| AtExit (r : outcome (any * option error))
| Finished (r : outcome (any * option error)).

Definition advance (p : pc) (w : World) : pc * World :=
  match p with
  | AtEntry out =>
      match reflect.TypeOf out with
      | None => (Finished (Panics reflect.nil_dereference), w)
      | Some k =>
          if decide (reflect.kind_of k ≠ reflect.Ptr)
          then (Finished (Returns (Nil, Some ErrOutputMustBeAPointer)), w)
          else (AtLookup k, snd (RLock w))
      end
  | AtLookup k =>
      match providers (recv w) !! k with
      | Some service => (AtExit (Returns (service, None)), w)
      | None => (AtFactory k, w)
      end
  | AtFactory k =>
      match factories (recv w) !! k with
      | Some factory =>
          match invoke k factory w with
          | (Returns service, w') => (AtStore k service, w')
          | (Panics p, w') => (AtExit (Panics p), w')
          end
      | None => (AtExit (Returns (Nil, Some ErrServiceNotFound)), w)
      end
  | AtStore k service =>
      (AtExit (Returns (service, None)), snd (store_provider k service w))
  | AtExit r => (Finished r, snd (RUnlock w))
  | Finished r => (Finished r, w)
  end.

(** A goroutine running alone for [n] steps. *)
Fixpoint solo (n : nat) (p : pc) (w : World) : pc * World :=
  match n with
  | 0 => (p, w)
  | S n => let '(p', w') := advance p w in solo n p' w'
  end.

(** A schedule names, step by step, the goroutine that moves next. *)
Fixpoint interleave (schedule : list nat) (ts : list pc) (w : World)
  : list pc * World :=
  match schedule with
  | [] => (ts, w)
  | i :: schedule =>
      match ts !! i with
      | Some p =>
          let '(p', w') := advance p w in
          interleave schedule (<[i := p']> ts) w'
      | None => interleave schedule ts w
      end
  end.

(** ** A small client *)

Module example.

Definition User : gotype := StructT "User" [IntT; StringT].
Definition Other : gotype := StructT "Other" [IntT].

(** A heap holding one [User] at address 1. *)
Definition h0 : Heap := {[ 1%positive := DStruct [DInt 1%Z; DString "John"] ]}.

(** [&User{...}], the pointer to it. *)
Definition john : any := pointer User (Some 1%positive).

(** [func() *User { return &User{ID: 2, Name: "b"} }] *)
Definition newUser : fbody := fun h =>
  let a := fresh (dom h) in
  (Returns [DPtr (Some a)], <[a := DStruct [DInt 2%Z; DString "b"]]> h).

Definition newUserFn : any := Some (Fn [] [PtrT User] (Some newUser)).



(** A fresh container next to [h0]. *)
Definition w0 : World := mkWorld container.New h0 [].

(** [w0] after [Register(john)]. *)
Definition w_john : World := snd (container.Register john w0).

(** [w0] after [RegisterFactory(newUserFn)]. *)
Definition w_factory : World := snd (container.RegisterFactory newUserFn w0).

End example.

(** ** Vocabulary of the statements *)

(** The argument's dynamic type is a pointer type; the nil interface has no
    dynamic type. *)
Definition pointer_shaped (i : any) : Prop :=
  exists e, reflect.TypeOf i = Some (PtrT e).

(** The key [RegisterFactory] stores under: the declared result type of a
    function with one result. *)
Definition factory_key (factory : any) : option gotype :=
  match reflect.TypeOf factory with
  | Some (FuncT _ [o]) => Some o
  | _ => None
  end.

(** The last four statements of [GetValue]: the copy from the resolved
    instance into the caller's slot. *)
Definition copy_instance (service out : any) : M (option error) :=
  servicePtr <- reflect.Value_Elem (reflect.ValueOf service) ;;
  setOutValue <- reflect.Value_Elem (reflect.ValueOf out) ;;
  on_heap (reflect.Value_Set setOutValue servicePtr) ;;;
  ret None.

(** Every successful [Get] for key [k] in a run of [prog] with replies [rs]
    returned [v]. *)
Definition answers (k : gotype) (prog : list op) (rs : list reply) (v : any)
  : Prop :=
  forall i out v',
    prog !! i = Some (CallGet out) -> reflect.TypeOf out = Some k ->
    rs !! i = Some (Got v' None) -> v' = v.

(** Every key of the two mappings is a pointer type. *)
Definition pointer_keys (c : Container) : Prop :=
  (forall k v, providers c !! k = Some v -> reflect.kind_of k = reflect.Ptr) /\
  (forall k (f : thunk), factories c !! k = Some f ->
                         reflect.kind_of k = reflect.Ptr).

(** The call ended in a panic. *)
Definition panicked {A} (r : outcome A * World) : Prop :=
  exists p, fst r = Panics p.

(** ** What each method computes *)

Ltac world w := destruct w as [[? ? ?] ? ?].

Ltac run_method :=
  unfold container.Register, container.RegisterFactory, container.Get,
    container.GetValue, bind, defer, ret, panic, RLock, RUnlock, with_recv,
    load_provider, load_factory, store_provider, store_factory, invoke,
    on_heap, set_provider, set_factory, set_heap, log_call,
    reflect.Type_Kind, reflect.Value_Type, reflect.Type_NumIn,
    reflect.Type_NumOut, reflect.Type_Out, reflect.TypeOf, reflect.ValueOf;
  cbn.

Lemma Register_nil w :
  container.Register Nil w = (Panics reflect.nil_dereference, w).
Proof. reflexivity. Qed.

Lemma Register_typed v w :
  container.Register (Some v) w =
  if decide (reflect.kind_of (reflect.type_of v) = reflect.Ptr)
  then (Returns None, set_provider (reflect.type_of v) (Some v) w)
  else (Returns (Some ErrOutputMustBeAPointer), w).
Proof.
  world w. run_method.
  destruct (reflect.kind_of (reflect.type_of v)); reflexivity.
Qed.

Lemma RegisterFactory_nil w :
  container.RegisterFactory Nil w =
  (Panics (PanicRuntime "reflect: call of reflect.Value.Type on zero Value"), w).
Proof. world w. reflexivity. Qed.

Lemma RegisterFactory_typed v w :
  container.RegisterFactory (Some v) w =
  match reflect.type_of v with
  | FuncT [] [o] =>
      if decide (reflect.kind_of o = reflect.Ptr)
      then (Returns None, set_factory o (container.wrapper (reflect.Direct v)) w)
      else (Returns (Some ErrOutputMustBeAPointer), w)
  | FuncT [] _ => (Returns (Some ErrFactoryMustReturnOneValue), w)
  | FuncT (_ :: _) _ => (Returns (Some ErrFactoryMustTakeNoArguments), w)
  | _ => (Returns (Some ErrFactoryMustBeAFunction), w)
  end.
Proof.
  world w. run_method.
  destruct (reflect.type_of v) as [| | | | | | |[|i ins] [|o [|o' outs]]];
    try reflexivity.
  cbn. destruct (reflect.kind_of o); reflexivity.
Qed.

Lemma Get_nil w :
  container.Get Nil w = (Panics reflect.nil_dereference, w).
Proof. reflexivity. Qed.

Lemma Get_typed v w :
  container.Get (Some v) w =
  let k := reflect.type_of v in
  if decide (reflect.kind_of k = reflect.Ptr) then
    match providers (recv w) !! k with
    | Some service => (Returns (service, None), w)
    | None =>
        match factories (recv w) !! k with
        | Some factory =>
            match factory (heap w) with
            | (Returns service, h) =>
                (Returns (service, None),
                 set_provider k service (log_call k (set_heap h w)))
            | (Panics p, h) => (Panics p, log_call k (set_heap h w))
            end
        | None => (Returns (Nil, Some ErrServiceNotFound), w)
        end
    end
  else (Returns (Nil, Some ErrOutputMustBeAPointer), w).
Proof.
  world w. run_method.
  destruct (reflect.kind_of (reflect.type_of v)) eqn:K; try reflexivity.
  repeat case_decide; try congruence; cbn.
  destruct (_ !! _) as [service|]; [reflexivity|].
  destruct (_ !! _) as [factory|]; [|reflexivity].
  destruct (factory _) as [[service|p] h]; reflexivity.
Qed.

Lemma pointer_shaped_kind v :
  pointer_shaped (Some v) <-> reflect.kind_of (reflect.type_of v) = reflect.Ptr.
Proof.
  unfold pointer_shaped; cbn. split.
  - intros [e [= ->]]. reflexivity.
  - destruct (reflect.type_of v); try discriminate. eauto.
Qed.

Lemma nil_not_pointer_shaped : ~ pointer_shaped Nil.
Proof. intros [e [=]]. Qed.

(** The stored closure calls the function and returns its single result
    tagged with the declared result type. *)
Lemma wrapper_result outs body h :
  container.wrapper (reflect.Direct (Fn [] outs (Some body))) h =
  match body h with
  | (Returns raw, h') =>
      match outs, raw with
      | o :: _, d :: _ => (Returns (Some (Data o d)), h')
      | _, _ => (Panics (PanicRuntime "index out of range"), h')
      end
  | (Panics p, h') => (Panics p, h')
  end.
Proof.
  unfold container.wrapper, bind, reflect.Value_Call, bind, ret.
  destruct (body h) as [[raw|p] h']; [|reflexivity].
  destruct outs as [|o outs], raw as [|d raw]; reflexivity.
Qed.

(** ** Registration *)

(** C4, as stated, fails at the nil interface: it is not pointer-shaped, yet
    [Register(nil)] neither returns [ErrOutputMustBeAPointer] nor stores
    anything; it panics on the nil [reflect.Type]. *)
Lemma Register_nil_is_not_rejected :
  ~ pointer_shaped Nil /\
  fst (container.Register Nil example.w0) <> Returns (Some ErrOutputMustBeAPointer) /\
  fst (container.Register Nil example.w0) <> Returns None /\
  container.Register Nil example.w0 = (Panics reflect.nil_dereference, example.w0).
Proof.
  split; [exact nil_not_pointer_shaped|].
  rewrite Register_nil. cbn. repeat split; discriminate.
Qed.

(** C4 (amended to non-nil inputs): for every value [v] with a dynamic type,
    [Register] returns [ErrOutputMustBeAPointer] and leaves the world as it
    was when the type of [v] is not a pointer type; otherwise it returns nil
    and the only change is that the instance mapping now holds [v] under the
    type of [v], whatever it held there before. *)
Theorem Register_stores_pointers (v : typed) (w : World) :
  (~ pointer_shaped (Some v) ->
   container.Register (Some v) w = (Returns (Some ErrOutputMustBeAPointer), w)) /\
  (pointer_shaped (Some v) ->
   container.Register (Some v) w =
     (Returns None, set_provider (reflect.type_of v) (Some v) w) /\
   providers (recv (snd (container.Register (Some v) w))) !! reflect.type_of v
     = Some (Some v)).
Proof.
  rewrite pointer_shaped_kind, Register_typed. split; intros K.
  - case_decide; [contradiction|reflexivity].
  - case_decide; [|contradiction]. split; [reflexivity|].
    cbn. apply lookup_insert_eq.
Qed.

Lemma Register_stores_pointers_witness :
  container.Register example.john example.w0 =
    (Returns None,
     set_provider (PtrT example.User) example.john example.w0) /\
  container.Register (Some (Data example.User (DStruct [DInt 1%Z; DString "John"])))
    example.w0 = (Returns (Some ErrOutputMustBeAPointer), example.w0).
Proof.
  split.
  - apply (Register_stores_pointers
             (Data (PtrT example.User) (DPtr (Some 1%positive))) example.w0).
    exists example.User. reflexivity.
  - apply (Register_stores_pointers
             (Data example.User (DStruct [DInt 1%Z; DString "John"])) example.w0).
    intros [e [=]].
Defined.

(** C3, as stated, fails at the nil interface: it is not a function value,
    yet [RegisterFactory(nil)] does not return [ErrFactoryMustBeAFunction];
    [Type()] on the zero [reflect.Value] panics. *)
Lemma RegisterFactory_nil_is_not_rejected :
  reflect.TypeOf Nil = None /\
  fst (container.RegisterFactory Nil example.w0)
    <> Returns (Some ErrFactoryMustBeAFunction) /\
  panicked (container.RegisterFactory Nil example.w0).
Proof.
  rewrite RegisterFactory_nil. cbn.
  repeat split; [discriminate|]. eexists; reflexivity.
Qed.

(** C3 (amended to non-nil inputs): for every value [v] with a dynamic type
    [t], [RegisterFactory] checks in this order and returns the first
    failure, the world unchanged: [t] is not a function type; [t] declares
    parameters; [t] does not declare exactly one result; the result type is
    not a pointer type.  When all pass it returns nil, and the only change is
    that the factory mapping holds the wrapper of [v] under the result type,
    whatever it held there before. *)
Theorem RegisterFactory_validates_in_order (v : typed) (w : World) :
  (reflect.kind_of (reflect.type_of v) <> reflect.Func ->
   container.RegisterFactory (Some v) w
     = (Returns (Some ErrFactoryMustBeAFunction), w)) /\
  (forall ins outs, reflect.type_of v = FuncT ins outs -> ins <> [] ->
   container.RegisterFactory (Some v) w
     = (Returns (Some ErrFactoryMustTakeNoArguments), w)) /\
  (forall outs, reflect.type_of v = FuncT [] outs -> length outs <> 1 ->
   container.RegisterFactory (Some v) w
     = (Returns (Some ErrFactoryMustReturnOneValue), w)) /\
  (forall o, reflect.type_of v = FuncT [] [o] ->
   reflect.kind_of o <> reflect.Ptr ->
   container.RegisterFactory (Some v) w
     = (Returns (Some ErrOutputMustBeAPointer), w)) /\
  (forall o, reflect.type_of v = FuncT [] [o] ->
   reflect.kind_of o = reflect.Ptr ->
   container.RegisterFactory (Some v) w
     = (Returns None, set_factory o (container.wrapper (reflect.Direct v)) w) /\
   factories (recv (snd (container.RegisterFactory (Some v) w))) !! o
     = Some (container.wrapper (reflect.Direct v))).
Proof.
  rewrite RegisterFactory_typed. split; [|split; [|split; [|split]]].
  - destruct (reflect.type_of v); try reflexivity. intros K; now destruct K.
  - intros ins outs -> Hins. destruct ins; [contradiction|reflexivity].
  - intros outs -> Houts. destruct outs as [|o [|o' outs]]; try reflexivity.
    now destruct Houts.
  - intros o -> K. case_decide; [contradiction|reflexivity].
  - intros o -> K. case_decide; [|contradiction]. split; [reflexivity|].
    cbn. apply lookup_insert_eq.
Qed.

Lemma RegisterFactory_validates_in_order_witness :
  container.RegisterFactory example.newUserFn example.w0 =
    (Returns None,
     set_factory (PtrT example.User)
       (container.wrapper (reflect.ValueOf example.newUserFn)) example.w0) /\
  container.RegisterFactory (Some (Data StringT (DString "not a function")))
    example.w0 = (Returns (Some ErrFactoryMustBeAFunction), example.w0).
Proof.
  split.
  - apply (RegisterFactory_validates_in_order
             (Fn [] [PtrT example.User] (Some example.newUser)) example.w0);
      reflexivity.
  - apply (RegisterFactory_validates_in_order
             (Data StringT (DString "not a function")) example.w0).
    discriminate.
Defined.

(** The order shows on a function that fails several checks at once: with
    a parameter and two results of which none is a pointer, the answer is
    the error of the parameter check; without the parameter, that of the
    result count. *)
Example RegisterFactory_reports_the_first_failure :
  container.RegisterFactory (Some (Fn [StringT] [IntT; IntT] None)) example.w0
    = (Returns (Some ErrFactoryMustTakeNoArguments), example.w0) /\
  container.RegisterFactory (Some (Fn [] [IntT; IntT] None)) example.w0
    = (Returns (Some ErrFactoryMustReturnOneValue), example.w0) /\
  container.RegisterFactory (Some (Fn [] [IntT] None)) example.w0
    = (Returns (Some ErrOutputMustBeAPointer), example.w0).
Proof. repeat split; rewrite RegisterFactory_typed; reflexivity. Qed.

(** The whole effect of a registration on the world: none, or one entry
    written in its own mapping. *)
Lemma RegisterFactory_effect x w :
  snd (container.RegisterFactory x w) = w \/
  exists o f, factory_key x = Some o /\
              snd (container.RegisterFactory x w) = set_factory o f w.
Proof.
  destruct x as [v|]; [|left; now rewrite RegisterFactory_nil].
  rewrite RegisterFactory_typed. unfold factory_key. cbn.
  destruct (reflect.type_of v) as [| | | | | | |[|i ins] [|o [|o' outs]]];
    try (left; reflexivity).
  case_decide; [right; eauto|left; reflexivity].
Qed.

Lemma Register_effect x w :
  snd (container.Register x w) = w \/
  exists k, reflect.TypeOf x = Some k /\
            snd (container.Register x w) = set_provider k x w.
Proof.
  destruct x as [v|]; [|left; now rewrite Register_nil].
  rewrite Register_typed. case_decide; [right; eauto|left; reflexivity].
Qed.

(** C8: [RegisterFactory] never changes the instance mapping and [Register]
    never changes the factory mapping, whatever the argument; each leaves
    every entry of its own mapping other than the one for the affected key as
    it was, and neither touches the heap or invokes a factory. *)
Theorem registration_frame (x : any) (w : World) (k : gotype) :
  providers (recv (snd (container.RegisterFactory x w))) = providers (recv w) /\
  factories (recv (snd (container.Register x w))) = factories (recv w) /\
  (factory_key x <> Some k ->
   factories (recv (snd (container.RegisterFactory x w))) !! k
     = factories (recv w) !! k) /\
  (reflect.TypeOf x <> Some k ->
   providers (recv (snd (container.Register x w))) !! k
     = providers (recv w) !! k) /\
  heap (snd (container.RegisterFactory x w)) = heap w /\
  heap (snd (container.Register x w)) = heap w /\
  calls (snd (container.RegisterFactory x w)) = calls w /\
  calls (snd (container.Register x w)) = calls w.
Proof.
  destruct (RegisterFactory_effect x w) as [->|(o & f & Ho & ->)],
           (Register_effect x w) as [->|(k' & Hk' & ->)];
    cbn; repeat split; try reflexivity; intros Hne;
    apply lookup_insert_ne; congruence.
Qed.

Lemma registration_frame_witness :
  factories (recv (snd (container.RegisterFactory example.newUserFn example.w_john)))
    !! PtrT example.Other = factories (recv example.w_john) !! PtrT example.Other /\
  providers (recv (snd (container.Register example.john example.w_factory)))
    !! PtrT example.Other = providers (recv example.w_factory) !! PtrT example.Other.
Proof.
  split.
  - apply (registration_frame example.newUserFn example.w_john
             (PtrT example.Other)). discriminate.
  - apply (registration_frame example.john example.w_factory
             (PtrT example.Other)). discriminate.
Defined.

(** ** Resolution *)

(** C1, as stated, fails at the nil interface: it is not pointer-shaped, yet
    [Get(nil)] does not return [ErrOutputMustBeAPointer]; [Kind()] on the nil
    [reflect.Type] panics. *)
Lemma Get_nil_is_not_rejected :
  ~ pointer_shaped Nil /\
  fst (container.Get Nil example.w0) <> Returns (Nil, Some ErrOutputMustBeAPointer) /\
  container.Get Nil example.w0 = (Panics reflect.nil_dereference, example.w0).
Proof.
  split; [exact nil_not_pointer_shaped|].
  rewrite Get_nil. cbn. split; [discriminate|reflexivity].
Qed.

(** C1 (amended to non-nil arguments): for an argument [v] of pointer type
    [k], [Get] returns the instance stored under [k] with no error and no
    change; failing that, it invokes the factory stored under [k] and, when
    the factory returns, stores the result under [k] and returns it; with
    neither entry it returns [ErrServiceNotFound].  For an argument with a
    dynamic type that is not a pointer type it returns
    [ErrOutputMustBeAPointer] whatever the two mappings hold. *)
Theorem Get_resolves_by_type (v : typed) (w : World) :
  let k := reflect.type_of v in
  (pointer_shaped (Some v) ->
   forall service, providers (recv w) !! k = Some service ->
   container.Get (Some v) w = (Returns (service, None), w)) /\
  (pointer_shaped (Some v) ->
   providers (recv w) !! k = None ->
   forall (factory : thunk) (service : any) (h : Heap),
     factories (recv w) !! k = Some factory ->
     factory (heap w) = (Returns service, h) ->
     container.Get (Some v) w =
       (Returns (service, None),
        set_provider k service (log_call k (set_heap h w)))) /\
  (pointer_shaped (Some v) ->
   providers (recv w) !! k = None -> factories (recv w) !! k = None ->
   container.Get (Some v) w = (Returns (Nil, Some ErrServiceNotFound), w)) /\
  (~ pointer_shaped (Some v) ->
   forall c : Container,
     container.Get (Some v) (mkWorld c (heap w) (calls w)) =
       (Returns (Nil, Some ErrOutputMustBeAPointer),
        mkWorld c (heap w) (calls w))).
Proof.
  intros k. subst k. rewrite pointer_shaped_kind.
  split; [|split; [|split]].
  - intros K service Hp. rewrite Get_typed. cbv zeta.
    case_decide; [|contradiction]. now rewrite Hp.
  - intros K Hp factory service h Hf Hr. rewrite Get_typed. cbv zeta.
    case_decide; [|contradiction]. now rewrite Hp, Hf, Hr.
  - intros K Hp Hf. rewrite Get_typed. cbv zeta.
    case_decide; [|contradiction]. now rewrite Hp, Hf.
  - intros K c. rewrite Get_typed. cbv zeta.
    case_decide; [contradiction|reflexivity].
Qed.

Lemma Get_resolves_by_type_witness :
  container.Get (pointer example.User None) example.w_john
    = (Returns (example.john, None), example.w_john) /\
  container.Get (pointer example.Other None) example.w_john
    = (Returns (Nil, Some ErrServiceNotFound), example.w_john).
Proof.
  split.
  - apply (Get_resolves_by_type (Data (PtrT example.User) (DPtr None))
             example.w_john).
    + exists example.User. reflexivity.
    + vm_compute. reflexivity.
  - apply (Get_resolves_by_type (Data (PtrT example.Other) (DPtr None))
             example.w_john).
    + exists example.Other. reflexivity.
    + vm_compute. reflexivity.
    + vm_compute. reflexivity.
Defined.

(** C10: an untyped nil argument makes [Register], [RegisterFactory] and
    [Get] panic, the world untouched, instead of returning
    [ErrOutputMustBeAPointer] or [ErrFactoryMustBeAFunction]; every argument
    that has a dynamic type and is not acceptable is answered with an error
    value. *)
Theorem nil_argument_panics (w : World) :
  container.Register Nil w = (Panics reflect.nil_dereference, w) /\
  container.RegisterFactory Nil w =
    (Panics (PanicRuntime "reflect: call of reflect.Value.Type on zero Value"), w) /\
  container.Get Nil w = (Panics reflect.nil_dereference, w) /\
  (forall v : typed,
     (exists e, container.Register (Some v) w = (Returns e, snd (container.Register (Some v) w))) /\
     (exists e, container.RegisterFactory (Some v) w
                = (Returns e, snd (container.RegisterFactory (Some v) w))) /\
     (container.Get (Some v) w = (Returns (Nil, Some ErrOutputMustBeAPointer), w)
      \/ pointer_shaped (Some v))).
Proof.
  split; [apply Register_nil|]. split; [apply RegisterFactory_nil|].
  split; [apply Get_nil|]. intros v. split; [|split].
  - rewrite Register_typed. case_decide; eexists; reflexivity.
  - rewrite RegisterFactory_typed.
    destruct (reflect.type_of v) as [| | | | | | |[|i ins] [|o [|o' outs]]];
      try (eexists; reflexivity).
    case_decide; eexists; reflexivity.
  - rewrite pointer_shaped_kind, Get_typed. cbv zeta.
    case_decide; [right; assumption|left; reflexivity].
Qed.

Lemma Get_error_unchanged out w service e w' :
  container.Get out w = (Returns (service, Some e), w') ->
  w' = w /\ service = Nil.
Proof.
  destruct out as [v|]; [|rewrite Get_nil; discriminate].
  rewrite Get_typed. cbv zeta. case_decide.
  - destruct (providers _ !! _); [discriminate|].
    destruct (factories _ !! _) as [factory|]; [|now intros [= <- <- <-]].
    destruct (factory _) as [[?|?] ?]; discriminate.
  - now intros [= <- <- <-].
Qed.

(** ** The generic helpers *)

Lemma Get_generic_eq T w :
  Get T w =
  let a := fresh (dom (heap w)) in
  match container.Get (pointer T (Some a))
          (set_heap (<[a := zero T]> (heap w)) w) with
  | (Returns (v, None), w') =>
      match assert_ptr v T with
      | Some o => (Returns (o, None), w')
      | None => (Returns (DPtr None, Some ErrOutputMustBeAPointer), w')
      end
  | (Returns (_, Some e), w') => (Returns (DPtr None, Some e), w')
  | (Panics p, w') => (Panics p, w')
  end.
Proof.
  unfold Get, bind, on_heap, alloc, set_heap. cbn -[container.Get assert_ptr].
  destruct (container.Get _ _) as [[[v [e|]]|p] w']; try reflexivity.
  destruct (assert_ptr v T); reflexivity.
Qed.

(** C7: [MustGet[T]] returns the pointer a successful [Get[T]] returns, and
    panics with the error when [Get[T]] returns one; for a type with neither
    an instance nor a factory it panics with [ErrServiceNotFound]. *)
Theorem MustGet_returns_or_panics (T : gotype) (w : World) :
  MustGet T w =
    match Get T w with
    | (Returns (v, None), w') => (Returns v, w')
    | (Returns (_, Some e), w') => (Panics (PanicError e), w')
    | (Panics p, w') => (Panics p, w')
    end /\
  (providers (recv w) !! PtrT T = None ->
   factories (recv w) !! PtrT T = None ->
   fst (Get T w) = Returns (DPtr None, Some ErrServiceNotFound) /\
   fst (MustGet T w) = Panics (PanicError ErrServiceNotFound)).
Proof.
  assert (E : MustGet T w =
    match Get T w with
    | (Returns (v, None), w') => (Returns v, w')
    | (Returns (_, Some e), w') => (Panics (PanicError e), w')
    | (Panics p, w') => (Panics p, w')
    end).
  { unfold MustGet, bind.
    destruct (Get T w) as [[[v [e|]]|p] w']; reflexivity. }
  split; [exact E|]. intros Hp Hf. rewrite E, Get_generic_eq. cbv zeta.
  unfold pointer. rewrite Get_typed. cbn -[lookup].
  case_decide; [|congruence]. now rewrite Hp, Hf.
Qed.

Lemma MustGet_returns_or_panics_witness :
  fst (Get example.Other example.w_john)
    = Returns (DPtr None, Some ErrServiceNotFound) /\
  fst (MustGet example.Other example.w_john)
    = Panics (PanicError ErrServiceNotFound).
Proof.
  apply (MustGet_returns_or_panics example.Other example.w_john);
    vm_compute; reflexivity.
Defined.

(** ** Resolution into the caller's slot *)

Lemma GetValue_eq out w :
  container.GetValue out w =
  match container.Get out w with
  | (Returns (service, None), w') => copy_instance service out w'
  | (Returns (_, Some e), w') => (Returns (Some e), w')
  | (Panics p, w') => (Panics p, w')
  end.
Proof.
  unfold container.GetValue, bind.
  destruct (container.Get out w) as [[[service [e|]]|p] w']; reflexivity.
Qed.

(** The copy only ever changes the heap. *)
Lemma copy_instance_frame service out w :
  exists h, snd (copy_instance service out w) = set_heap h w.
Proof.
  world w. unfold copy_instance, bind, on_heap, ret, set_heap. cbn.
  destruct (reflect.Value_Elem _ _) as [[x|p] w1] eqn:E1.
  2:{ exists heap0.
      destruct service as [[[] [| | |[]| |]|]|]; cbn in E1;
        injection E1 as _ <-; reflexivity. }
  assert (w1 = mkWorld (mkContainer factories0 providers0 mu0) heap0 calls0) as ->.
  { destruct service as [[[] [| | |[]| |]|]|]; cbn in E1;
      injection E1 as _ <-; reflexivity. }
  destruct (reflect.Value_Elem (reflect.ValueOf out) _) as [[y|p] w2] eqn:E2.
  2:{ exists heap0.
      destruct out as [[[] [| | |[]| |]|]|]; cbn in E2;
        injection E2 as _ <-; reflexivity. }
  assert (w2 = mkWorld (mkContainer factories0 providers0 mu0) heap0 calls0) as ->.
  { destruct out as [[[] [| | |[]| |]|]|]; cbn in E2;
      injection E2 as _ <-; reflexivity. }
  cbn. destruct (reflect.Value_Set y x heap0) as [[[]|p] h]; cbn; eauto.
Qed.

(** When the copy succeeds, slot and instance are variables of one type and
    the slot receives the contents of the instance. *)
Lemma copy_instance_success service out w w' :
  copy_instance service out w = (Returns None, w') ->
  exists T a b d,
    out = pointer T (Some a) /\ service = pointer T (Some b) /\
    heap w !! b = Some d /\ w' = set_heap (<[a := d]> (heap w)) w.
Proof.
  world w. unfold copy_instance, bind, on_heap, ret, set_heap, pointer.
  destruct service as [[[| | | | | |es|] [| | |[b|]| |]|]|]; cbn;
    try discriminate.
  all: destruct out as [[[| | | | | |eo|] [| | |[a|]| |]|]|]; cbn;
    try discriminate.
  case_decide; [|discriminate]. subst.
  destruct (heap0 !! b) as [d|] eqn:Hb; [|discriminate].
  destruct (heap0 !! a) as [d'|] eqn:Ha; [|discriminate].
  intros [= <-]. exists eo, a, b, d. repeat split; assumption.
Qed.

(** C6, as stated, fails in two ways.  A resolution that succeeds is not
    always followed by a copy: with a nil slot pointer, or with a nil pointer
    as the stored instance, [Get] succeeds and [GetValue] panics, nothing
    copied.  And the slot may be the stored instance itself: [GetValue]
    succeeds, slot and instance are one variable (address 1), and a later
    write to the slot changes the instance. *)
Lemma GetValue_slot_may_be_the_instance :
  let w_nil := snd (container.Register (pointer example.User None) example.w0) in
  (container.Get (pointer example.User None) example.w_john
     = (Returns (example.john, None), example.w_john) /\
   panicked (container.GetValue (pointer example.User None) example.w_john) /\
   snd (container.GetValue (pointer example.User None) example.w_john)
     = example.w_john) /\
  (container.Get example.john w_nil
     = (Returns (pointer example.User None, None), w_nil) /\
   panicked (container.GetValue example.john w_nil) /\
   snd (container.GetValue example.john w_nil) = w_nil) /\
  (container.Get example.john example.w_john
     = (Returns (pointer example.User (Some 1%positive), None), example.w_john) /\
   container.GetValue (pointer example.User (Some 1%positive)) example.w_john
     = (Returns None, example.w_john) /\
   <[1%positive := DStruct [DInt 7%Z; DString "x"]]> (heap example.w_john)
     !! 1%positive <> heap example.w_john !! 1%positive).
Proof.
  split; [|split].
  - split; [vm_compute; reflexivity|].
    split; [eexists|]; vm_compute; reflexivity.
  - split; [vm_compute; reflexivity|].
    split; [eexists|]; vm_compute; reflexivity.
  - split; [|split].
    + vm_compute. reflexivity.
    + vm_compute. reflexivity.
    + vm_compute. discriminate.
Qed.

(** C6 (amended: slot and instance are non-nil pointers, and the slot is
    a variable other than the stored instance).  An error of the resolution
    is returned as it is and nothing is written.  When the slot pointer is
    non-nil and the resolution succeeds with a non-nil pointer of the slot's
    type, both pointing to variables, [GetValue] returns nil and the slot
    holds the contents the instance has, nothing else changed from the world
    the resolution left; if slot and instance are different variables the
    instance keeps its contents, also under any later write to the slot.
    Conversely [GetValue] returns nil only in that way. *)
Theorem GetValue_copies_the_instance (out : any) (w : World) :
  (forall service e w',
     container.Get out w = (Returns (service, Some e), w') ->
     container.GetValue out w = (Returns (Some e), w)) /\
  (forall T a b d d0 w',
     out = pointer T (Some a) ->
     container.Get out w = (Returns (pointer T (Some b), None), w') ->
     heap w' !! b = Some d ->
     heap w' !! a = Some d0 ->
     container.GetValue out w
       = (Returns None, set_heap (<[a := d]> (heap w')) w') /\
     heap (snd (container.GetValue out w)) !! a = Some d /\
     (a <> b ->
      heap (snd (container.GetValue out w)) !! b = Some d /\
      forall d',
        <[a := d']> (heap (snd (container.GetValue out w))) !! b = Some d)) /\
  (forall w'',
     container.GetValue out w = (Returns None, w'') ->
     exists T a b d w',
       out = pointer T (Some a) /\
       container.Get out w = (Returns (pointer T (Some b), None), w') /\
       heap w' !! b = Some d /\
       w'' = set_heap (<[a := d]> (heap w')) w' /\
       heap w'' !! a = Some d /\
       (a <> b ->
        heap w'' !! b = Some d /\
        forall d', <[a := d']> (heap w'') !! b = Some d)).
Proof.
  split; [|split].
  - intros service e w' G. rewrite GetValue_eq, G.
    now destruct (Get_error_unchanged _ _ _ _ _ G) as [-> _].
  - intros T a b d d0 w' -> G Hb Ha.
    assert (E : container.GetValue (pointer T (Some a)) w
                = (Returns None, set_heap (<[a := d]> (heap w')) w')).
    { rewrite GetValue_eq, G.
      unfold copy_instance, bind, on_heap, ret, pointer, set_heap. cbn.
      case_decide; [|congruence]. now rewrite Hb, Ha. }
    rewrite E. cbn. split; [reflexivity|]. split; [apply lookup_insert_eq|].
    intros N. split; [now rewrite lookup_insert_ne|].
    intros d'. now rewrite !lookup_insert_ne.
  - intros w''. rewrite GetValue_eq.
    destruct (container.Get out w) as [[[service [e|]]|p] w'];
      try discriminate.
    intros C. apply copy_instance_success in C.
    destruct C as (T & a & b & d & -> & -> & Hb & ->).
    exists T, a, b, d, w'. cbn. repeat split; try assumption.
    + apply lookup_insert_eq.
    + now rewrite lookup_insert_ne.
    + intros d'. now rewrite !lookup_insert_ne.
Qed.

Lemma GetValue_copies_the_instance_witness :
  let slot := pointer example.User (Some 2%positive) in
  let w := set_heap (<[2%positive := zero example.User]> example.h0)
             example.w_john in
  container.GetValue slot w
    = (Returns None,
       set_heap (<[2%positive := DStruct [DInt 1%Z; DString "John"]]> (heap w)) w) /\
  heap (snd (container.GetValue slot w)) !! 2%positive
    = Some (DStruct [DInt 1%Z; DString "John"]) /\
  heap (snd (container.GetValue slot w)) !! 1%positive
    = Some (DStruct [DInt 1%Z; DString "John"]) /\
  <[2%positive := DStruct [DInt 7%Z; DString "x"]]>
    (heap (snd (container.GetValue slot w))) !! 1%positive
    = Some (DStruct [DInt 1%Z; DString "John"]).
Proof.
  intros slot w.
  destruct (proj1 (proj2 (GetValue_copies_the_instance slot w))
              example.User 2%positive 1%positive
              (DStruct [DInt 1%Z; DString "John"]) (zero example.User) w
              eq_refl) as (A & B & C);
    [vm_compute; reflexivity|vm_compute; reflexivity|vm_compute; reflexivity|].
  destruct C as [C1 C2]; [discriminate|].
  split; [exact A|]. split; [exact B|]. split; [exact C1|apply C2].
Defined.

(** ** Stored values have the type of their key *)

Lemma New_well_typed : well_typed container.New.
Proof.
  split.
  - intros k v. unfold container.New. cbn [providers].
    rewrite lookup_empty. discriminate.
  - intros k f h v h'. unfold container.New. cbn [factories].
    rewrite lookup_empty. discriminate.
Qed.

Lemma wrapper_typed v o h r h' :
  reflect.type_of v = FuncT [] [o] ->
  container.wrapper (reflect.Direct v) h = (Returns r, h') ->
  reflect.TypeOf r = Some o.
Proof.
  destruct v as [t d|ins outs [body|]]; cbn.
  - intros ->. discriminate.
  - intros [= -> ->]. rewrite wrapper_result.
    destruct (body h) as [[[|d raw]|p] h1]; try discriminate.
    now intros [= <- <-].
  - intros [= -> ->]. discriminate.
Qed.

Lemma RegisterFactory_well_typed x w :
  well_typed (recv w) ->
  well_typed (recv (snd (container.RegisterFactory x w))).
Proof.
  intros [Hp Hf].
  destruct x as [v|]; [|now rewrite RegisterFactory_nil].
  rewrite RegisterFactory_typed.
  destruct (reflect.type_of v) as [| | | | | | |[|i ins] [|o [|o' outs]]] eqn:Tv;
    try (split; assumption).
  case_decide; [|split; assumption].
  split; [exact Hp|]. intros k f h r h'. cbn.
  rewrite lookup_insert. case_decide as Hk.
  - subst k. intros [= <-]. now apply wrapper_typed.
  - apply Hf.
Qed.

Lemma Register_well_typed x w :
  well_typed (recv w) ->
  well_typed (recv (snd (container.Register x w))).
Proof.
  intros [Hp Hf].
  destruct (Register_effect x w) as [->|(k & Hk & ->)]; [now split|].
  split; [|exact Hf]. intros k' v'. cbn.
  rewrite lookup_insert. case_decide as E.
  - subst k'. now intros [= <-].
  - apply Hp.
Qed.

(** A successful [Get] returns a value of the requested type and keeps the
    container well typed. *)
Lemma Get_success_typed x w service w' :
  well_typed (recv w) ->
  container.Get (Some x) w = (Returns (service, None), w') ->
  reflect.TypeOf service = Some (reflect.type_of x).
Proof.
  intros [Hp Hf]. rewrite Get_typed. cbv zeta. case_decide; [|discriminate].
  destruct (providers _ !! _) as [s|] eqn:P.
  - intros [= <- <-]. now apply Hp in P.
  - destruct (factories _ !! _) as [factory|] eqn:F; [|discriminate].
    destruct (factory (heap w)) as [[s|p] h] eqn:R; [|discriminate].
    intros [= <- <-]. eapply Hf; eassumption.
Qed.

Lemma Get_well_typed out w :
  well_typed (recv w) -> well_typed (recv (snd (container.Get out w))).
Proof.
  intros [Hp Hf]. destruct out as [x|]; [|now rewrite Get_nil].
  rewrite Get_typed. cbv zeta. case_decide; [|now split].
  destruct (providers _ !! _) as [s|] eqn:P; [now split|].
  destruct (factories _ !! _) as [factory|] eqn:F; [|now split].
  destruct (factory (heap w)) as [[s|p] h] eqn:R; [|now split].
  split; [|exact Hf]. intros k' v'. cbn.
  rewrite lookup_insert. case_decide as E.
  - subst k'. intros [= <-]. eapply Hf; eassumption.
  - apply Hp.
Qed.

Lemma GetValue_recv out w :
  recv (snd (container.GetValue out w)) = recv (snd (container.Get out w)) /\
  calls (snd (container.GetValue out w)) = calls (snd (container.Get out w)).
Proof.
  rewrite GetValue_eq.
  destruct (container.Get out w) as [[[service [e|]]|p] w']; try now split.
  destruct (copy_instance_frame service out w') as [h ->]. now split.
Qed.

Lemma step_well_typed o w :
  well_typed (recv w) -> well_typed (recv (snd (step o w))).
Proof.
  intros H. destruct o as [service|factory|out|out|f]; cbn; unfold bind, ret.
  - pose proof (Register_well_typed service w H) as R.
    now destruct (container.Register service w) as [[e|p] w'].
  - pose proof (RegisterFactory_well_typed factory w H) as R.
    now destruct (container.RegisterFactory factory w) as [[e|p] w'].
  - pose proof (Get_well_typed out w H) as R.
    now destruct (container.Get out w) as [[e|p] w'].
  - pose proof (Get_well_typed out w H) as R.
    destruct (GetValue_recv out w) as [E _]. rewrite <- E in R.
    now destruct (container.GetValue out w) as [[e|p] w'].
  - exact H.
Qed.

Lemma reachable_well_typed w : reachable w -> well_typed (recv w).
Proof.
  induction 1 as [h|w o _ IH]; [exact New_well_typed|].
  now apply step_well_typed.
Qed.

(** The generic helpers keep a client inside the reachable worlds: each is
    an allocation followed by a call of [Container.Get]. *)
Lemma Get_generic_world T w :
  snd (Get T w) =
  snd (step (CallGet (pointer T (Some (fresh (dom (heap w))))))
         (snd (step (Mutate (fun h => <[fresh (dom h) := zero T]> h)) w))).
Proof.
  rewrite Get_generic_eq. cbn -[container.Get assert_ptr]. unfold bind, ret.
  destruct (container.Get _ _) as [[[v [e|]]|p] w']; try reflexivity.
  destruct (assert_ptr v T); reflexivity.
Qed.

Lemma reachable_Get_generic T w : reachable w -> reachable (snd (Get T w)).
Proof. intros R. rewrite Get_generic_world. now do 2 apply reach_step. Qed.

Lemma reachable_MustGet T w : reachable w -> reachable (snd (MustGet T w)).
Proof.
  intros R. pose proof (reachable_Get_generic T w R) as G.
  unfold MustGet, bind. now destruct (Get T w) as [[[v [e|]]|p] w'].
Qed.

Lemma Get_pointer_error T out w service e w' :
  container.Get (pointer T out) w = (Returns (service, Some e), w') ->
  e = ErrServiceNotFound.
Proof.
  unfold pointer. rewrite Get_typed. cbn -[lookup].
  case_decide; [|congruence].
  destruct (providers _ !! _); [discriminate|].
  destruct (factories _ !! _) as [factory|]; [|now intros [= <- <- <-]].
  destruct (factory _) as [[?|?] ?]; discriminate.
Qed.

(** C9: in every world a client reaches from [New], each stored instance has
    exactly the dynamic type it is stored under; hence whenever
    [Container.Get] succeeds for the key [*T] the assertion of its result to
    [*T] succeeds, and [Get[T]] never returns [ErrOutputMustBeAPointer]. *)
Theorem typed_Get_assertion_holds (w : World) :
  reachable w ->
  providers_typed (recv w) /\
  (forall T out v w',
     container.Get (pointer T out) w = (Returns (v, None), w') ->
     exists o, assert_ptr v T = Some o) /\
  (forall T p, fst (Get T w) <> Returns (p, Some ErrOutputMustBeAPointer)).
Proof.
  intros R. apply reachable_well_typed in R.
  assert (A : forall w1 T out v w',
             well_typed (recv w1) ->
             container.Get (pointer T out) w1 = (Returns (v, None), w') ->
             exists o, assert_ptr v T = Some o).
  { intros w1 T out v w' W G. apply Get_success_typed in G; [|exact W].
    destruct v as [[t d|]|]; try discriminate.
    injection G as ->. exists d. cbn. now case_decide. }
  split; [exact (proj1 R)|]. split; [intros T out v w'; now apply A|].
  intros T p. rewrite Get_generic_eq. cbv zeta.
  destruct (container.Get _ _) as [[[v [e|]]|q] w'] eqn:G; cbn.
  - apply Get_pointer_error in G. subst e. discriminate.
  - apply A in G; [|exact R]. destruct G as [o ->]. discriminate.
  - discriminate.
Qed.

Lemma typed_Get_assertion_holds_witness :
  providers_typed (recv example.w_john) /\
  (forall T out v w',
     container.Get (pointer T out) example.w_john = (Returns (v, None), w') ->
     exists o, assert_ptr v T = Some o) /\
  (forall T p,
     fst (Get T example.w_john) <> Returns (p, Some ErrOutputMustBeAPointer)).
Proof.
  apply (typed_Get_assertion_holds example.w_john).
  exact (reach_step example.w0 (CallRegister example.john)
           (reach_New example.h0)).
Defined.

(** ** Memoisation in sequential programs *)

(** The three ways a [Get] can end: without touching the world (and then a
    success is the stored instance), after a factory returned (its result is
    memoised), or in the panic of a factory. *)
Lemma Get_cases out w :
  (snd (container.Get out w) = w /\
   forall v', fst (container.Get out w) = Returns (v', None) ->
              exists k', reflect.TypeOf out = Some k' /\
                         providers (recv w) !! k' = Some v') \/
  (exists k' service h,
     reflect.TypeOf out = Some k' /\ providers (recv w) !! k' = None /\
     container.Get out w =
       (Returns (service, None),
        set_provider k' service (log_call k' (set_heap h w)))) \/
  (exists k' p h,
     reflect.TypeOf out = Some k' /\ providers (recv w) !! k' = None /\
     container.Get out w = (Panics p, log_call k' (set_heap h w))).
Proof.
  destruct out as [x|].
  2:{ left. rewrite Get_nil. split; [reflexivity|discriminate]. }
  rewrite Get_typed. cbv zeta. case_decide.
  2:{ left. split; [reflexivity|discriminate]. }
  destruct (providers _ !! _) as [s|] eqn:P.
  { left. split; [reflexivity|]. intros v' [= <-]. eauto. }
  destruct (factories _ !! _) as [factory|] eqn:F.
  2:{ left. split; [reflexivity|discriminate]. }
  destruct (factory (heap w)) as [[s|p] h] eqn:R.
  - right; left. exists (reflect.type_of x), s, h. auto.
  - right; right. exists (reflect.type_of x), p, h. auto.
Qed.

Lemma invocations_log_call k k' w :
  invocations k (log_call k' w) =
  if decide (k' = k) then S (invocations k w) else invocations k w.
Proof.
  unfold invocations, log_call. cbn [calls count_occ].
  destruct (gotype_eq_dec k' k) as [E|E]; case_decide; congruence.
Qed.

(** Once an instance is stored under [k], a step that does not register
    under [k] keeps it, invokes no factory for [k], and a successful [Get]
    for [k] returns it. *)
Lemma step_memo k v o w :
  ~ registers k o ->
  providers (recv w) !! k = Some v ->
  providers (recv (snd (step o w))) !! k = Some v /\
  invocations k (snd (step o w)) = invocations k w /\
  (gets k o -> forall v', fst (step o w) = Returns (Got v' None) -> v' = v).
Proof.
  intros Hreg Hk.
  assert (G : forall out,
    providers (recv (snd (container.Get out w))) !! k = Some v /\
    invocations k (snd (container.Get out w)) = invocations k w /\
    (reflect.TypeOf out = Some k ->
     forall v', fst (container.Get out w) = Returns (v', None) -> v' = v)).
  { intros out.
    destruct (Get_cases out w)
      as [[E S]|[(k' & s & h & T & P & E)|(k' & p & h & T & P & E)]].
    - rewrite E. repeat split; try assumption.
      intros T v' R. destruct (S v' R) as (k' & T' & P). congruence.
    - rewrite E. cbn -[invocations]. assert (k' <> k) by congruence.
      rewrite lookup_insert_ne by assumption. split; [assumption|].
      split; [|congruence].
      change (invocations k (log_call k' (set_heap h w)) = invocations k w).
      rewrite invocations_log_call. now case_decide.
    - rewrite E. cbn -[invocations]. assert (k' <> k) by congruence.
      split; [assumption|]. split; [|congruence].
      change (invocations k (log_call k' (set_heap h w)) = invocations k w).
      rewrite invocations_log_call. now case_decide. }
  destruct o as [service|factory|out|out|f]; cbn [step gets]; unfold bind, ret.
  - assert (R : providers (recv (snd (container.Register service w))) !! k = Some v /\
                invocations k (snd (container.Register service w)) = invocations k w).
    { destruct (Register_effect service w) as [->|(k' & T & ->)]; [now split|].
      cbn -[invocations]. rewrite lookup_insert_ne; [now split|].
      intros ->. now apply Hreg. }
    destruct (container.Register service w) as [[e|p] w']; cbn in *; tauto.
  - assert (R : providers (recv (snd (container.RegisterFactory factory w))) !! k = Some v /\
                invocations k (snd (container.RegisterFactory factory w)) = invocations k w).
    { destruct (RegisterFactory_effect factory w) as [->|(o & g & T & ->)];
        now split. }
    destruct (container.RegisterFactory factory w) as [[e|p] w']; cbn in *; tauto.
  - specialize (G out).
    destruct (container.Get out w) as [[[s e]|p] w']; cbn in *.
    + destruct G as (G1 & G2 & G3). repeat split; try assumption.
      intros T v' [= -> ->]. now apply G3.
    + destruct G as (G1 & G2 & G3). repeat split; try assumption.
      discriminate.
  - specialize (G out). destruct (GetValue_recv out w) as [E1 E2].
    assert (R : providers (recv (snd (container.GetValue out w))) !! k = Some v /\
                invocations k (snd (container.GetValue out w)) = invocations k w).
    { unfold invocations in *. rewrite E1, E2. tauto. }
    destruct (container.GetValue out w) as [[e|p] w']; cbn in *; tauto.
  - cbn. tauto.
Qed.

(** While nothing is stored under [k], a step that does not register under
    [k] either leaves that so and invokes no factory for [k], or panics
    after at most one invocation, or invokes the factory for [k] once and
    memoises its result. *)
Lemma step_fresh k o w :
  ~ registers k o ->
  providers (recv w) !! k = None ->
  (providers (recv (snd (step o w))) !! k = None /\
   invocations k (snd (step o w)) = invocations k w /\
   (gets k o -> forall v', fst (step o w) <> Returns (Got v' None))) \/
  (panicked (step o w) /\
   invocations k (snd (step o w)) <= S (invocations k w)) \/
  (exists v,
     providers (recv (snd (step o w))) !! k = Some v /\
     invocations k (snd (step o w)) = S (invocations k w) /\
     (gets k o -> forall v', fst (step o w) = Returns (Got v' None) -> v' = v)).
Proof.
  intros Hreg Hk.
  assert (G : forall out,
    (providers (recv (snd (container.Get out w))) !! k = None /\
     invocations k (snd (container.Get out w)) = invocations k w /\
     (forall v', fst (container.Get out w) = Returns (v', None) ->
                 reflect.TypeOf out <> Some k) /\
     forall p, fst (container.Get out w) <> Panics p) \/
    (panicked (container.Get out w) /\
     invocations k (snd (container.Get out w)) <= S (invocations k w)) \/
    (exists v,
       providers (recv (snd (container.Get out w))) !! k = Some v /\
       invocations k (snd (container.Get out w)) = S (invocations k w) /\
       fst (container.Get out w) = Returns (v, None))).
  { intros out.
    destruct (Get_cases out w)
      as [[E S]|[(k' & s & h & T & P & E)|(k' & p & h & T & P & E)]].
    - destruct (container.Get out w) as [[r|p] w'] eqn:R; cbn in E; subst w'.
      + left. cbn. repeat split; try assumption; [|discriminate].
        intros v' Hv T. destruct (S v' Hv) as (k' & T' & P). congruence.
      + right; left. cbn. split; [eexists; reflexivity|lia].
    - rewrite E. destruct (decide (k' = k)) as [->|N].
      + right; right. exists s. cbn -[invocations].
        rewrite lookup_insert_eq. split; [reflexivity|]. split; [|reflexivity].
        change (invocations k (log_call k (set_heap h w)) = S (invocations k w)).
        rewrite invocations_log_call. now case_decide.
      + left. cbn -[invocations]. rewrite lookup_insert_ne by assumption.
        split; [assumption|]. split; [|split; [congruence|discriminate]].
        change (invocations k (log_call k' (set_heap h w)) = invocations k w).
        rewrite invocations_log_call. now case_decide.
    - rewrite E. right; left. split; [eexists; reflexivity|].
      cbn -[invocations].
      change (invocations k (log_call k' (set_heap h w)) <= S (invocations k w)).
      rewrite invocations_log_call. unfold invocations; cbn.
      case_decide; lia. }
  destruct o as [service|factory|out|out|f]; cbn [step gets]; unfold bind, ret.
  - left.
    assert (R : providers (recv (snd (container.Register service w))) !! k = None /\
                invocations k (snd (container.Register service w)) = invocations k w).
    { destruct (Register_effect service w) as [->|(k' & T & ->)]; [now split|].
      cbn -[invocations]. rewrite lookup_insert_ne; [now split|].
      intros ->. now apply Hreg. }
    destruct (container.Register service w) as [[e|p] w']; cbn in *; tauto.
  - left.
    assert (R : providers (recv (snd (container.RegisterFactory factory w))) !! k = None /\
                invocations k (snd (container.RegisterFactory factory w)) = invocations k w).
    { destruct (RegisterFactory_effect factory w) as [->|(o & g & T & ->)];
        now split. }
    destruct (container.RegisterFactory factory w) as [[e|p] w']; cbn in *; tauto.
  - destruct (G out) as [(G1 & G2 & G3 & G4)|[(G1 & G2)|(v & G1 & G2 & G3)]].
    + left. destruct (container.Get out w) as [[[s e]|p] w']; cbn in *.
      * repeat split; try assumption. intros T v' [= <- ->].
        now apply (G3 s).
      * now destruct (G4 p).
    + right; left. destruct G1 as [p G1].
      destruct (container.Get out w) as [[[s e]|q] w']; cbn in *;
        [discriminate|]. split; [eexists; reflexivity|assumption].
    + right; right. exists v.
      destruct (container.Get out w) as [[[s e]|q] w']; cbn in *;
        [|discriminate]. repeat split; try assumption.
      intros T v' [= -> ->]. congruence.
  - destruct (GetValue_recv out w) as [E1 E2]. unfold invocations in *.
    destruct (G out) as [(G1 & G2 & G3 & G4)|[(G1 & G2)|(v & G1 & G2 & G3)]].
    + left. rewrite <- E1 in G1. rewrite <- E2 in G2.
      destruct (container.GetValue out w) as [[e|p] w']; cbn in *; tauto.
    + right; left. rewrite <- E2 in G2. destruct G1 as [p G1].
      rewrite GetValue_eq in *.
      destruct (container.Get out w) as [[[s e]|q] w']; cbn in *;
        [discriminate|]. split; [eexists; reflexivity|assumption].
    + rewrite <- E1 in G1. rewrite <- E2 in G2.
      destruct (container.GetValue out w) as [[e|p] w']; cbn in *.
      * right; right. exists v. tauto.
      * right; left. split; [eexists; reflexivity|lia].
  - left. cbn. repeat split; try assumption. intros [].
Qed.

Lemma run_cons o prog w :
  run (o :: prog) w =
  match step o w with
  | (Returns r, w1) =>
      match run prog w1 with
      | (Returns rs, w2) => (Returns (r :: rs), w2)
      | (Panics p, w2) => (Panics p, w2)
      end
  | (Panics p, w1) => (Panics p, w1)
  end.
Proof.
  cbn [run]. unfold bind, ret.
  destruct (step o w) as [[r|p] w1]; [|reflexivity].
  destruct (run prog w1) as [[rs|p] w2]; reflexivity.
Qed.

Lemma run_memo k v prog :
  Forall (fun o => ~ registers k o) prog ->
  forall w, providers (recv w) !! k = Some v ->
  invocations k (snd (run prog w)) = invocations k w /\
  providers (recv (snd (run prog w))) !! k = Some v /\
  forall rs, fst (run prog w) = Returns rs -> answers k prog rs v.
Proof.
  induction 1 as [|o prog Ho _ IH]; intros w Hk.
  - cbn. repeat split; try assumption. intros rs _ i out v' E.
    now rewrite lookup_nil in E.
  - destruct (step_memo k v o w Ho Hk) as (S1 & S2 & S3).
    rewrite run_cons.
    destruct (step o w) as [[r|p] w1]; cbn in S1, S2, S3; [|now cbn].
    destruct (IH w1 S1) as (I1 & I2 & I3).
    destruct (run prog w1) as [[rs|p] w2]; cbn in I1, I2, I3 |- *.
    + split; [congruence|]. split; [assumption|].
      intros rs' [= <-] [|i] out v' E T R; cbn in E, R.
      * injection E as ->. injection R as ->. now apply (S3 T).
      * now apply (I3 rs eq_refl i out v').
    + split; [congruence|]. split; [assumption|discriminate].
Qed.

Lemma run_fresh k prog :
  Forall (fun o => ~ registers k o) prog ->
  forall w, providers (recv w) !! k = None ->
  invocations k (snd (run prog w)) <= S (invocations k w) /\
  exists v0, forall rs, fst (run prog w) = Returns rs ->
    answers k prog rs v0 /\
    forall i out v',
      prog !! i = Some (CallGet out) -> reflect.TypeOf out = Some k ->
      rs !! i = Some (Got v' None) ->
      invocations k (snd (run prog w)) = S (invocations k w) /\
      providers (recv (snd (run prog w))) !! k = Some v0.
Proof.
  induction 1 as [|o prog Ho Hprog IH]; intros w Hk.
  - cbn. split; [lia|]. exists Nil. intros rs _.
    split; intros i out v' E; now rewrite lookup_nil in E.
  - rewrite run_cons.
    destruct (step_fresh k o w Ho Hk)
      as [(S1 & S2 & S3)|[([p S1] & S2)|(v & S1 & S2 & S3)]].
    + destruct (step o w) as [[r|p] w1]; cbn in S1, S2, S3.
      2:{ cbn. split; [lia|]. exists Nil. discriminate. }
      destruct (IH w1 S1) as (I1 & v0 & I2).
      destruct (run prog w1) as [[rs|p] w2]; cbn in I1, I2 |- *.
      2:{ split; [lia|]. exists Nil. discriminate. }
      split; [lia|]. exists v0. intros rs' [= <-].
      destruct (I2 rs eq_refl) as [A B]. split.
      * intros [|i] out v' E T R; cbn in E, R.
        -- injection E as ->. injection R as ->. now destruct (S3 T v').
        -- now apply (A i out v').
      * intros [|i] out v' E T R; cbn in E, R.
        -- injection E as ->. injection R as ->. now destruct (S3 T v').
        -- destruct (B i out v' E T R) as [B1 B2]. split; [lia|assumption].
    + destruct (step o w) as [[r|q] w1]; cbn in S1, S2; [discriminate|].
      cbn. split; [assumption|]. exists Nil. discriminate.
    + destruct (step o w) as [[r|q] w1]; cbn in S1, S2, S3.
      2:{ cbn. split; [lia|]. exists Nil. discriminate. }
      destruct (run_memo k v prog Hprog w1 S1) as (M1 & M2 & M3).
      destruct (run prog w1) as [[rs|p] w2]; cbn in M1, M2, M3 |- *.
      2:{ split; [lia|]. exists Nil. discriminate. }
      split; [lia|]. exists v. intros rs' [= <-]. split.
      * intros [|i] out v' E T R; cbn in E, R.
        -- injection E as ->. injection R as ->. now apply (S3 T).
        -- now apply (M3 rs eq_refl i out v').
      * intros i out v' _ _ _. split; [lia|assumption].
Qed.

(** In a run that ends at the first panic and never registers an instance
    under [k], the factories stored under [k] are invoked at most once in
    all, and all successful [Get]s for [k] return one and the same value. *)
Lemma unrecovered_run_invokes_at_most_once
    (k : gotype) (prog : list op) (w : World) :
  Forall (fun o => ~ registers k o) prog ->
  invocations k (snd (run prog w)) <= S (invocations k w) /\
  (exists v, forall rs, fst (run prog w) = Returns rs -> answers k prog rs v) /\
  (providers (recv w) !! k = None ->
   forall rs i out v,
     fst (run prog w) = Returns rs ->
     prog !! i = Some (CallGet out) -> reflect.TypeOf out = Some k ->
     rs !! i = Some (Got v None) ->
     invocations k (snd (run prog w)) = S (invocations k w) /\
     providers (recv (snd (run prog w))) !! k = Some v) /\
  (forall x, reflect.type_of x = k -> pointer_shaped (Some x) ->
     invocations k (snd (run (CallRegister (Some x) :: prog) w))
       = invocations k w /\
     forall rs, fst (run (CallRegister (Some x) :: prog) w) = Returns rs ->
                answers k (CallRegister (Some x) :: prog) rs (Some x)).
Proof.
  intros Hprog. split; [|split; [|split]].
  - destruct (providers (recv w) !! k) as [v|] eqn:Hk.
    + destruct (run_memo k v prog Hprog w Hk) as (M & _). lia.
    + now destruct (run_fresh k prog Hprog w Hk).
  - destruct (providers (recv w) !! k) as [v|] eqn:Hk.
    + exists v. now destruct (run_memo k v prog Hprog w Hk) as (_ & _ & M).
    + destruct (run_fresh k prog Hprog w Hk) as (_ & v0 & F).
      exists v0. intros rs R. now destruct (F rs R).
  - intros Hk rs i out v R E T G.
    destruct (run_fresh k prog Hprog w Hk) as (_ & v0 & F).
    destruct (F rs R) as [A B]. destruct (B i out v E T G) as [B1 B2].
    split; [assumption|]. now rewrite (A i out v E T G).
  - intros x <- Px. rewrite run_cons. cbn [step]. unfold bind, ret.
    rewrite Register_typed. apply pointer_shaped_kind in Px.
    case_decide; [|contradiction].
    destruct (run_memo (reflect.type_of x) (Some x) prog Hprog
                (set_provider (reflect.type_of x) (Some x) w))
      as (M1 & M2 & M3).
    { cbn. apply lookup_insert_eq. }
    destruct (run prog _) as [[rs|p] w2]; cbn in M1, M3 |- *.
    + split; [exact M1|]. intros rs' [= <-] [|i] out v' E T R; cbn in E, R.
      * discriminate.
      * now apply (M3 rs eq_refl i out v').
    + split; [exact M1|discriminate].
Qed.

(** Two resolutions of a factory-backed type: the factory ran once and
    both calls returned the pointer to the one new [User] at address 2. *)
Example two_Gets_one_instance :
  let u := pointer example.User None in
  run [CallGet u; Mutate (fun h => h); CallGet u] example.w_factory =
  (Returns [Got (pointer example.User (Some 2%positive)) None; Done;
            Got (pointer example.User (Some 2%positive)) None],
   snd (container.Get u example.w_factory)) /\
  invocations (PtrT example.User) (snd (container.Get u example.w_factory)) = 1.
Proof. vm_compute. split; reflexivity. Qed.

(** ** Memoisation seen by a client that recovers from panics *)










(** ** Concurrent resolution *)

(** The steps of the goroutine model compose to the method: a goroutine
    that runs alone ends, within five steps, with the outcome and the world
    of [Container.Get]. *)
Lemma solo_is_Get out w :
  solo 5 (AtEntry out) w =
  (Finished (fst (container.Get out w)), snd (container.Get out w)).
Proof.
  destruct out as [x|]; [|reflexivity].
  rewrite Get_typed. cbv zeta. world w.
  unfold solo, advance, RLock, RUnlock, store_provider, with_recv, invoke.
  cbn -[lookup decide].
  destruct (decide (reflect.kind_of (reflect.type_of x) = reflect.Ptr)) as [K|K];
    case_decide; try contradiction; [|reflexivity].
  cbn -[lookup]. destruct (providers0 !! _) as [s|]; [reflexivity|].
  cbn -[lookup]. destruct (factories0 !! _) as [factory|]; [|reflexivity].
  cbn -[lookup]. destruct (factory heap0) as [[s|p] h]; reflexivity.
Qed.

(** C5 fails on the code: two goroutines resolve the same factory-backed,
    not yet instantiated type; both hold the read lock, both miss the
    instance mapping before either writes it, both invoke the factory.  The
    factory runs twice, the goroutines receive different instances (the
    addresses 2 and 3), and the one memoised last is the one later calls
    see. *)
Lemma racing_Gets_invoke_the_factory_twice :
  let u := pointer example.User None in
  let k := PtrT example.User in
  let r := interleave [0; 1; 0; 1; 0; 1; 0; 1; 0; 1] [AtEntry u; AtEntry u]
             example.w_factory in
  providers (recv example.w_factory) !! k = None /\
  invocations k example.w_factory = 0 /\
  fst r = [Finished (Returns (pointer example.User (Some 2%positive), None));
           Finished (Returns (pointer example.User (Some 3%positive), None))] /\
  invocations k (snd r) = 2 /\
  providers (recv (snd r)) !! k = Some (pointer example.User (Some 3%positive)) /\
  mu (recv (snd r)) = 0.
Proof. vm_compute. repeat split; reflexivity. Qed.

(** The same two calls one after the other: one invocation, one instance. *)
Example serial_Gets_invoke_the_factory_once :
  let u := pointer example.User None in
  let k := PtrT example.User in
  let r := interleave [0; 0; 0; 0; 0; 1; 1; 1; 1; 1] [AtEntry u; AtEntry u]
             example.w_factory in
  fst r = [Finished (Returns (pointer example.User (Some 2%positive), None));
           Finished (Returns (pointer example.User (Some 2%positive), None))] /\
  invocations k (snd r) = 1.
Proof. vm_compute. split; reflexivity. Qed.


(** * Further properties of the container *)

(** ** A container fresh from [New] *)

(** X1: on a container just made by [New], whatever the heap, every
    resolution for a pointer type fails with [ErrServiceNotFound] and changes
    nothing: [Get] and [GetValue] return the error, [Get[T]] returns a nil
    pointer with it, [MustGet[T]] panics with it. *)
Theorem New_resolves_nothing (h : Heap) (e : gotype) (d : data) :
  let w := mkWorld container.New h [] in
  container.Get (Some (Data (PtrT e) d)) w
    = (Returns (Nil, Some ErrServiceNotFound), w) /\
  container.GetValue (Some (Data (PtrT e) d)) w
    = (Returns (Some ErrServiceNotFound), w) /\
  fst (Get e w) = Returns (DPtr None, Some ErrServiceNotFound) /\
  fst (MustGet e w) = Panics (PanicError ErrServiceNotFound) /\
  recv (snd (MustGet e w)) = container.New.
Proof.
  intros w.
  assert (G : forall h' d',
             container.Get (Some (Data (PtrT e) d')) (mkWorld container.New h' [])
             = (Returns (Nil, Some ErrServiceNotFound), mkWorld container.New h' [])).
  { intros h' d'. rewrite Get_typed. cbn -[lookup]. case_decide; [|congruence].
    now rewrite !lookup_empty. }
  assert (E : Get e w = (Returns (DPtr None, Some ErrServiceNotFound),
                         mkWorld container.New
                           (<[fresh (dom h) := zero e]> h) [])).
  { rewrite Get_generic_eq. subst w. cbv zeta.
    unfold pointer, set_heap. cbn [heap recv calls].
    now rewrite G. }
  subst w. split; [apply G|]. split; [now rewrite GetValue_eq, G|].
  split; [now rewrite E|]. unfold MustGet, bind. now rewrite E.
Qed.

(** ** What [Get] reads and what it writes *)

(** X2: [Get] uses its argument only for its dynamic type: two arguments
    of the same type, whatever they point to, get the same answer and leave
    the same world. *)
Theorem Get_reads_only_the_type (v1 v2 : typed) (w : World) :
  reflect.type_of v1 = reflect.type_of v2 ->
  container.Get (Some v1) w = container.Get (Some v2) w.
Proof. intros E. rewrite !Get_typed. cbv zeta. now rewrite E. Qed.

Lemma Get_reads_only_the_type_witness :
  container.Get example.john example.w_factory
  = container.Get (pointer example.User None) example.w_factory.
Proof.
  apply (Get_reads_only_the_type
           (Data (PtrT example.User) (DPtr (Some 1%positive)))
           (Data (PtrT example.User) (DPtr None)) example.w_factory).
  reflexivity.
Defined.

(** X3: [Get] and [GetValue] never change the factory mapping, never
    replace an instance that is stored, and write the instance mapping at
    most under the key of their argument. *)
Theorem resolution_frame (out : any) (w : World) (k : gotype) :
  factories (recv (snd (container.Get out w))) = factories (recv w) /\
  factories (recv (snd (container.GetValue out w))) = factories (recv w) /\
  (forall v, providers (recv w) !! k = Some v ->
             providers (recv (snd (container.Get out w))) !! k = Some v /\
             providers (recv (snd (container.GetValue out w))) !! k = Some v) /\
  (reflect.TypeOf out <> Some k ->
   providers (recv (snd (container.Get out w))) !! k = providers (recv w) !! k /\
   providers (recv (snd (container.GetValue out w))) !! k
     = providers (recv w) !! k).
Proof.
  destruct (GetValue_recv out w) as [-> _].
  destruct (Get_cases out w)
    as [[-> _]|[(k' & s & h & T & P & ->)|(k' & p & h & T & P & ->)]]; cbn.
  - repeat split; reflexivity || assumption.
  - split; [reflexivity|]. split; [reflexivity|]. split.
    + intros v Hv. assert (k' <> k) by congruence.
      now rewrite lookup_insert_ne.
    + intros N. assert (k' <> k) by congruence.
      now rewrite lookup_insert_ne.
  - repeat split; reflexivity || assumption.
Qed.

Lemma resolution_frame_witness :
  providers (recv (snd (container.Get (pointer example.User None) example.w_factory)))
    !! PtrT example.Other = providers (recv example.w_factory) !! PtrT example.Other.
Proof.
  apply (resolution_frame (pointer example.User None) example.w_factory
           (PtrT example.Other)).
  discriminate.
Defined.

(** X13: a call that returns an error has changed nothing.  The error of
    [Register] is [ErrOutputMustBeAPointer]; [RegisterFactory] never returns
    [ErrServiceNotFound]; [Get] and [GetValue] return [ErrServiceNotFound] or
    [ErrOutputMustBeAPointer], [Get] together with a nil service. *)
Theorem failed_calls_change_nothing (x : any) (w w' : World) (e : error) :
  (container.Register x w = (Returns (Some e), w') ->
   w' = w /\ e = ErrOutputMustBeAPointer) /\
  (container.RegisterFactory x w = (Returns (Some e), w') ->
   w' = w /\ e <> ErrServiceNotFound) /\
  (forall service, container.Get x w = (Returns (service, Some e), w') ->
   w' = w /\ service = Nil /\
   (e = ErrServiceNotFound \/ e = ErrOutputMustBeAPointer)) /\
  (container.GetValue x w = (Returns (Some e), w') ->
   w' = w /\ (e = ErrServiceNotFound \/ e = ErrOutputMustBeAPointer)).
Proof.
  assert (G : forall service, container.Get x w = (Returns (service, Some e), w') ->
     w' = w /\ service = Nil /\
     (e = ErrServiceNotFound \/ e = ErrOutputMustBeAPointer)).
  { intros service. destruct x as [v|]; [|rewrite Get_nil; discriminate].
    rewrite Get_typed. cbv zeta. case_decide.
    - destruct (providers _ !! _); [discriminate|].
      destruct (factories _ !! _) as [factory|]; [|intros [= <- <- <-]; auto].
      destruct (factory _) as [[?|?] ?]; discriminate.
    - intros [= <- <- <-]. auto. }
  split; [|split; [|split]].
  - destruct x as [v|]; [|rewrite Register_nil; discriminate].
    rewrite Register_typed. case_decide; [discriminate|].
    now intros [= <- <-].
  - destruct x as [v|]; [|rewrite RegisterFactory_nil; discriminate].
    rewrite RegisterFactory_typed.
    destruct (reflect.type_of v) as [| | | | | | |[|i ins] [|o [|o' outs]]];
      try (intros [= <- <-]; split; [reflexivity|discriminate]).
    case_decide; [discriminate|].
    intros [= <- <-]; split; [reflexivity|discriminate].
  - exact G.
  - rewrite GetValue_eq.
    destruct (container.Get x w) as [[[service [e'|]]|p] w1] eqn:R.
    + intros [= -> ->]. destruct (G service eq_refl) as (-> & _ & E). auto.
    + intros C. exfalso.
      destruct (copy_instance service x w1) as [[[e'|]|p] w2] eqn:Cp;
        try discriminate.
      unfold copy_instance, bind, ret in Cp.
      destruct (reflect.Value_Elem _ w1) as [[a|?] ?]; [|discriminate].
      destruct (reflect.Value_Elem _ _) as [[b|?] ?]; [|discriminate].
      destruct (on_heap _ _) as [[[]|?] ?]; discriminate.
    + discriminate.
Qed.

Lemma failed_calls_change_nothing_witness :
  snd (container.Register (Some (Data IntT (DInt 3%Z))) example.w_john)
    = example.w_john /\
  ErrOutputMustBeAPointer = ErrOutputMustBeAPointer.
Proof.
  apply (failed_calls_change_nothing (Some (Data IntT (DInt 3%Z)))
           example.w_john
           (snd (container.Register (Some (Data IntT (DInt 3%Z))) example.w_john))
           ErrOutputMustBeAPointer).
  vm_compute. reflexivity.
Defined.

(** ** Invariants of every client *)

Lemma step_world o w :
  snd (step o w) =
  match o with
  | CallRegister service => snd (container.Register service w)
  | CallRegisterFactory factory => snd (container.RegisterFactory factory w)
  | CallGet out => snd (container.Get out w)
  | CallGetValue out => snd (container.GetValue out w)
  | Mutate f => set_heap (f (heap w)) w
  end.
Proof.
  destruct o as [service|factory|out|out|f]; cbn [step]; unfold bind, ret;
    try reflexivity.
  - now destruct (container.Register service w) as [[?|?] ?].
  - now destruct (container.RegisterFactory factory w) as [[?|?] ?].
  - now destruct (container.Get out w) as [[?|?] ?].
  - now destruct (container.GetValue out w) as [[?|?] ?].
Qed.

Lemma Get_generic_recv T w :
  recv (snd (Get T w)) =
  recv (snd (container.Get (pointer T (Some (fresh (dom (heap w)))))
               (set_heap (<[fresh (dom (heap w)) := zero T]> (heap w)) w))).
Proof.
  rewrite Get_generic_eq. cbv zeta.
  destruct (container.Get _ _) as [[[v [e|]]|p] w']; try reflexivity.
  destruct (assert_ptr v T); reflexivity.
Qed.

Lemma MustGet_world T w : snd (MustGet T w) = snd (Get T w).
Proof.
  unfold MustGet, bind. now destruct (Get T w) as [[[v [e|]]|p] w'].
Qed.

(** X4: every method gives back the read lock it takes, on every path:
    after [Register], [RegisterFactory], [Get], [GetValue], [Get[T]] and
    [MustGet[T]], returning or panicking (nil argument, panicking factory,
    failed copy), the number of read holders is what it was. *)
Theorem read_lock_is_released (x : any) (T : gotype) (w : World) :
  mu (recv (snd (container.Register x w))) = mu (recv w) /\
  mu (recv (snd (container.RegisterFactory x w))) = mu (recv w) /\
  mu (recv (snd (container.Get x w))) = mu (recv w) /\
  mu (recv (snd (container.GetValue x w))) = mu (recv w) /\
  mu (recv (snd (Get T w))) = mu (recv w) /\
  mu (recv (snd (MustGet T w))) = mu (recv w).
Proof.
  assert (G : forall out w1, mu (recv (snd (container.Get out w1))) = mu (recv w1)).
  { intros out w1.
    destruct (Get_cases out w1)
      as [[-> _]|[(k' & s & h & _ & _ & ->)|(k' & p & h & _ & _ & ->)]];
      reflexivity. }
  split; [|split; [|split; [|split; [|split]]]].
  - now destruct (Register_effect x w) as [->|(k & _ & ->)].
  - now destruct (RegisterFactory_effect x w) as [->|(o & f & _ & ->)].
  - apply G.
  - destruct (GetValue_recv x w) as [-> _]. apply G.
  - rewrite Get_generic_recv, G. reflexivity.
  - rewrite MustGet_world, Get_generic_recv, G. reflexivity.
Qed.

(** X5: nothing is ever unregistered: along every run of a client, also
    one that ends in a panic, the keys of the instance mapping and of the
    factory mapping only grow. *)
Theorem slots_are_never_removed (prog : list op) (w : World) :
  dom (providers (recv w)) ⊆ dom (providers (recv (snd (run prog w)))) /\
  dom (factories (recv w)) ⊆ dom (factories (recv (snd (run prog w)))).
Proof.
  revert w. induction prog as [|o prog IH]; intros w; [split; reflexivity|].
  assert (S : dom (providers (recv w)) ⊆ dom (providers (recv (snd (step o w)))) /\
              dom (factories (recv w)) ⊆ dom (factories (recv (snd (step o w))))).
  { rewrite step_world. destruct o as [service|factory|out|out|f].
    - destruct (Register_effect service w) as [->|(k & _ & ->)];
        [split; reflexivity|]. cbn. rewrite dom_insert_L.
      split; [apply union_subseteq_r|reflexivity].
    - destruct (RegisterFactory_effect factory w) as [->|(k & g & _ & ->)];
        [split; reflexivity|]. cbn. rewrite dom_insert_L.
      split; [reflexivity|apply union_subseteq_r].
    - destruct (Get_cases out w)
        as [[-> _]|[(k' & s & h & _ & _ & ->)|(k' & p & h & _ & _ & ->)]];
        cbn; try (split; reflexivity). rewrite dom_insert_L.
      split; [apply union_subseteq_r|reflexivity].
    - destruct (GetValue_recv out w) as [-> _].
      destruct (Get_cases out w)
        as [[-> _]|[(k' & s & h & _ & _ & ->)|(k' & p & h & _ & _ & ->)]];
        cbn; try (split; reflexivity). rewrite dom_insert_L.
      split; [apply union_subseteq_r|reflexivity].
    - split; reflexivity. }
  rewrite run_cons. destruct (step o w) as [[r|p] w1]; cbn in S; [|exact S].
  specialize (IH w1). destruct (run prog w1) as [[rs|p] w2]; cbn in IH |- *;
    destruct S, IH; split; etrans; eassumption.
Qed.

Lemma step_pointer_keys o w :
  pointer_keys (recv w) -> pointer_keys (recv (snd (step o w))).
Proof.
  intros [Hp Hf].
  assert (G : forall out, pointer_keys (recv (snd (container.Get out w)))).
  { intros [x|]; [|now rewrite Get_nil]. rewrite Get_typed. cbv zeta.
    case_decide as K; [|now split].
    destruct (providers _ !! _); [now split|].
    destruct (factories _ !! _) as [factory|]; [|now split].
    destruct (factory _) as [[s|p] h]; [|now split].
    split; [|exact Hf]. intros k v. cbn. rewrite lookup_insert.
    case_decide; [now subst|apply Hp]. }
  rewrite step_world. destruct o as [service|factory|out|out|f].
  - destruct service as [v|]; [|now rewrite Register_nil].
    rewrite Register_typed. case_decide as K; [|now split].
    split; [|exact Hf]. intros k v'. cbn. rewrite lookup_insert.
    case_decide; [now subst|apply Hp].
  - destruct factory as [v|]; [|now rewrite RegisterFactory_nil].
    rewrite RegisterFactory_typed.
    destruct (reflect.type_of v) as [| | | | | | |[|i ins] [|o [|o' outs]]];
      try now split.
    case_decide as K; [|now split].
    split; [exact Hp|]. intros k g. cbn. rewrite lookup_insert.
    case_decide; [now subst|apply Hf].
  - apply G.
  - destruct (GetValue_recv out w) as [-> _]. apply G.
  - now split.
Qed.

(** X14: in every world a client reaches from [New], all keys of the
    instance mapping and of the factory mapping are pointer types, and no
    stored instance is the nil interface. *)
Theorem only_pointer_types_are_keys (w : World) :
  reachable w ->
  pointer_keys (recv w) /\
  forall k v, providers (recv w) !! k = Some v -> v <> Nil.
Proof.
  intros R. split.
  - induction R as [h|w o _ IH]; [|now apply step_pointer_keys].
    unfold pointer_keys, container.New. cbn [providers factories recv].
    split; intros k v; rewrite lookup_empty; discriminate.
  - intros k v Hv ->. apply reachable_well_typed in R.
    destruct R as [Hp _]. apply Hp in Hv. discriminate.
Qed.

Lemma only_pointer_types_are_keys_witness :
  pointer_keys (recv example.w_factory) /\
  forall k v, providers (recv example.w_factory) !! k = Some v -> v <> Nil.
Proof.
  apply (only_pointer_types_are_keys example.w_factory).
  exact (reach_step example.w0 (CallRegisterFactory example.newUserFn)
           (reach_New example.h0)).
Defined.

(** ** Registration followed by resolution *)

(** The copy either succeeds or panics with the world untouched. *)
Lemma copy_instance_returns_or_panics service out w :
  (exists w', copy_instance service out w = (Returns None, w')) \/
  (exists p, copy_instance service out w = (Panics p, w)).
Proof.
  world w. unfold copy_instance, bind, on_heap, ret.
  destruct service as [[[| | | | | |es|] [| | |[b|]| |]|]|]; cbn;
    try (right; eexists; reflexivity).
  all: destruct out as [[[| | | | | |eo|] [| | |[a|]| |]|]|]; cbn;
    try (right; eexists; reflexivity).
  case_decide; [|right; eexists; reflexivity].
  destruct (heap0 !! b) as [d|]; [|right; eexists; reflexivity].
  destruct (heap0 !! a) as [d'|]; [|right; eexists; reflexivity].
  left. eexists; reflexivity.
Qed.

(** X7: [Register] of a pointer followed by resolution is a round trip,
    whatever instance or factory was registered for the type before: [Get]
    for that type returns exactly the registered value and changes nothing,
    [Get[T]] and [MustGet[T]] return its pointer, and no factory runs. *)
Theorem Register_then_Get (e : gotype) (d : data) (w : World) :
  let v := Data (PtrT e) d in
  let w1 := set_provider (PtrT e) (Some v) w in
  container.Register (Some v) w = (Returns None, w1) /\
  (forall d', container.Get (Some (Data (PtrT e) d')) w1
              = (Returns (Some v, None), w1)) /\
  fst (Get e w1) = Returns (d, None) /\
  fst (MustGet e w1) = Returns d /\
  calls (snd (MustGet e w1)) = calls w.
Proof.
  intros v w1. subst v w1.
  assert (G : forall h d',
             container.Get (Some (Data (PtrT e) d'))
               (set_heap h (set_provider (PtrT e) (Some (Data (PtrT e) d)) w))
             = (Returns (Some (Data (PtrT e) d), None),
                set_heap h (set_provider (PtrT e) (Some (Data (PtrT e) d)) w))).
  { intros h d'. rewrite Get_typed. cbv zeta.
    cbn [recv providers set_heap set_provider reflect.type_of reflect.kind_of].
    case_decide; [|congruence]. now rewrite lookup_insert_eq. }
  assert (E : Get e (set_provider (PtrT e) (Some (Data (PtrT e) d)) w) =
              (Returns (d, None),
               set_heap (<[fresh (dom (heap w)) := zero e]> (heap w))
                 (set_provider (PtrT e) (Some (Data (PtrT e) d)) w))).
  { rewrite Get_generic_eq. cbv zeta. unfold pointer.
    cbn [heap set_provider]. rewrite G.
    cbn [assert_ptr]. now case_decide. }
  split; [|split; [|split; [|split]]].
  - rewrite Register_typed. cbn. now case_decide.
  - intros d'. specialize (G (heap w) d'). world w. exact G.
  - now rewrite E.
  - unfold MustGet, bind. now rewrite E.
  - unfold MustGet, bind. now rewrite E.
Qed.

(** X6: [RegisterFactory] of a function followed by the first resolution
    of its result type is a round trip: when no instance is stored for that
    type, [Get] runs exactly this function, whichever factory was registered
    for the type before, returns its result with the declared pointer type,
    leaves the heap as the function left it and stores the result as the
    instance. *)
Theorem RegisterFactory_then_Get
    (e : gotype) (body : fbody) (w : World) (d : data) (raw : list data)
    (h' : Heap) :
  providers (recv w) !! PtrT e = None ->
  body (heap w) = (Returns (d :: raw), h') ->
  let fn := Fn [] [PtrT e] (Some body) in
  let w1 := set_factory (PtrT e) (container.wrapper (reflect.Direct fn)) w in
  let v := Some (Data (PtrT e) d) in
  container.RegisterFactory (Some fn) w = (Returns None, w1) /\
  forall out,
    container.Get (pointer e out) w1 =
      (Returns (v, None),
       set_provider (PtrT e) v (log_call (PtrT e) (set_heap h' w1))).
Proof.
  intros Hp Hb fn w1 v. subst fn w1 v. split.
  - rewrite RegisterFactory_typed. cbn. now case_decide.
  - intros out. unfold pointer. rewrite Get_typed. cbv zeta.
    unfold set_factory.
    cbn [recv factories providers heap reflect.type_of reflect.kind_of].
    case_decide; [|congruence].
    rewrite Hp, lookup_insert_eq, wrapper_result, Hb. reflexivity.
Qed.

Lemma RegisterFactory_then_Get_witness :
  container.Get (pointer example.User None) example.w_factory =
    (Returns (pointer example.User (Some 2%positive), None),
     set_provider (PtrT example.User) (pointer example.User (Some 2%positive))
       (log_call (PtrT example.User)
          (set_heap (<[2%positive := DStruct [DInt 2%Z; DString "b"]]> example.h0)
             example.w_factory))).
Proof.
  apply (RegisterFactory_then_Get example.User example.newUser example.w0
           (DPtr (Some 2%positive)) []
           (<[2%positive := DStruct [DInt 2%Z; DString "b"]]> example.h0)).
  - vm_compute. reflexivity.
  - vm_compute. reflexivity.
Defined.

(** X11: a successful [Get] is idempotent: asked again for the same type,
    with any argument of that type, it returns the same value and leaves the
    world as the first call left it. *)
Theorem successful_Get_is_idempotent
    (v v' : typed) (w w' : World) (service : any) :
  container.Get (Some v) w = (Returns (service, None), w') ->
  reflect.type_of v' = reflect.type_of v ->
  container.Get (Some v') w' = (Returns (service, None), w').
Proof.
  intros G E. rewrite Get_typed in G. rewrite Get_typed. cbv zeta in *.
  rewrite E. case_decide; [|discriminate].
  destruct (providers (recv w) !! _) as [s|] eqn:P.
  - injection G as <- <-. now rewrite P.
  - destruct (factories (recv w) !! _) as [factory|]; [|discriminate].
    destruct (factory _) as [[s|p] h]; [|discriminate].
    injection G as <- <-. cbn -[lookup]. now rewrite lookup_insert_eq.
Qed.

Lemma successful_Get_is_idempotent_witness :
  container.Get example.john
    (snd (container.Get (pointer example.User None) example.w_factory))
  = (Returns (pointer example.User (Some 2%positive), None),
     snd (container.Get (pointer example.User None) example.w_factory)).
Proof.
  apply (successful_Get_is_idempotent
           (Data (PtrT example.User) (DPtr None))
           (Data (PtrT example.User) (DPtr (Some 1%positive)))
           example.w_factory).
  - vm_compute. reflexivity.
  - reflexivity.
Defined.

(** ** Factories that fail *)



(** X10: [RegisterFactory] accepts a nil function value of an acceptable
    type (the checks look at the type only) and stores a wrapper for it; the
    first resolution of the type then panics, with nothing memoised. *)
Theorem nil_function_is_registered (e : gotype) (w : World) :
  let fn := Fn [] [PtrT e] None in
  let w1 := set_factory (PtrT e) (container.wrapper (reflect.Direct fn)) w in
  container.RegisterFactory (Some fn) w = (Returns None, w1) /\
  (providers (recv w) !! PtrT e = None ->
   forall out,
     panicked (container.Get (pointer e out) w1) /\
     recv (snd (container.Get (pointer e out) w1)) = recv w1).
Proof.
  intros fn w1. subst fn w1. split.
  - rewrite RegisterFactory_typed. cbn. now case_decide.
  - intros Hp out. unfold pointer. rewrite Get_typed. cbv zeta.
    unfold set_factory.
    cbn [recv factories providers heap reflect.type_of reflect.kind_of].
    case_decide; [|congruence].
    rewrite Hp, lookup_insert_eq. cbn. split; [eexists|]; reflexivity.
Qed.

Lemma nil_function_is_registered_witness :
  panicked (container.Get (pointer example.User None)
              (set_factory (PtrT example.User)
                 (container.wrapper (reflect.Direct (Fn [] [PtrT example.User] None)))
                 example.w0)).
Proof.
  apply (nil_function_is_registered example.User example.w0).
  vm_compute. reflexivity.
Defined.

(** ** Nil pointers *)

Lemma copy_into_nil_panics service T w :
  exists p, copy_instance service (pointer T None) w = (Panics p, w).
Proof.
  destruct (copy_instance_returns_or_panics service (pointer T None) w)
    as [[w' C]|C]; [|exact C].
  apply copy_instance_success in C. destruct C as (? & ? & ? & ? & [=] & _).
Qed.

Lemma copy_from_nil_panics e out w :
  exists p, copy_instance (pointer e None) out w = (Panics p, w).
Proof.
  destruct (copy_instance_returns_or_panics (pointer e None) out w)
    as [[w' C]|C]; [|exact C].
  apply copy_instance_success in C. destruct C as (? & ? & ? & ? & _ & [=] & _).
Qed.

(** X8: [GetValue[T]] with a nil destination pointer.  If the type has
    neither instance nor factory it returns [ErrServiceNotFound]; if an
    instance is stored it panics and changes nothing; if only a factory is
    registered, the factory runs and its result is memoised before the
    panic.  It never returns nil. *)
Theorem GetValue_into_nil_pointer (T : gotype) (w : World) :
  (providers (recv w) !! PtrT T = None -> factories (recv w) !! PtrT T = None ->
   GetValue T None w = (Returns (Some ErrServiceNotFound), w)) /\
  (forall s, providers (recv w) !! PtrT T = Some s ->
     panicked (GetValue T None w) /\ snd (GetValue T None w) = w) /\
  (forall (f : thunk) (s : any) (h : Heap),
     providers (recv w) !! PtrT T = None ->
     factories (recv w) !! PtrT T = Some f -> f (heap w) = (Returns s, h) ->
     panicked (GetValue T None w) /\
     providers (recv (snd (GetValue T None w))) !! PtrT T = Some s /\
     invocations (PtrT T) (snd (GetValue T None w)) = S (invocations (PtrT T) w)) /\
  fst (GetValue T None w) <> Returns None.
Proof.
  unfold GetValue. rewrite GetValue_eq. unfold pointer at 1 3 5 7 9 11 13.
  rewrite Get_typed. cbv zeta.
  cbn [reflect.type_of reflect.kind_of]. case_decide; [|congruence].
  split; [|split; [|split]].
  - intros -> ->. reflexivity.
  - intros s ->. destruct (copy_into_nil_panics s T w) as [p ->].
    split; [eexists|]; reflexivity.
  - intros f s h -> -> ->.
    destruct (copy_into_nil_panics s T
                (set_provider (PtrT T) s (log_call (PtrT T) (set_heap h w))))
      as [p ->].
    split; [eexists; reflexivity|]. cbn [snd]. split.
    + cbn. apply lookup_insert_eq.
    + change (invocations (PtrT T) (log_call (PtrT T) (set_heap h w))
              = S (invocations (PtrT T) w)).
      rewrite invocations_log_call. now case_decide.
  - destruct (providers (recv w) !! PtrT T) as [s|].
    + destruct (copy_into_nil_panics s T w) as [p ->]. discriminate.
    + destruct (factories (recv w) !! PtrT T) as [f|]; [|discriminate].
      destruct (f (heap w)) as [[s|q] h]; [|discriminate].
      destruct (copy_into_nil_panics s T
                  (set_provider (PtrT T) s (log_call (PtrT T) (set_heap h w))))
        as [p ->]. discriminate.
Qed.

Lemma GetValue_into_nil_pointer_witness :
  panicked (GetValue example.User None example.w_john) /\
  snd (GetValue example.User None example.w_john) = example.w_john.
Proof.
  apply (proj1 (proj2 (GetValue_into_nil_pointer example.User example.w_john))
           example.john).
  vm_compute. reflexivity.
Defined.

(** X12: a nil pointer is an instance like any other.  When the instance
    stored for [*T] is a nil [*T] (registered as such, or returned by the
    factory), [Get] returns it as a non-nil interface with no error,
    [Get[T]] returns a nil pointer with a nil error, [MustGet[T]] returns
    nil without panicking, and [GetValue] panics for every destination,
    changing nothing. *)
Theorem nil_pointer_instance (e : gotype) (w : World) :
  providers (recv w) !! PtrT e = Some (pointer e None) ->
  (forall out, container.Get (pointer e out) w
               = (Returns (pointer e None, None), w)) /\
  fst (Get e w) = Returns (DPtr None, None) /\
  fst (MustGet e w) = Returns (DPtr None) /\
  forall out, panicked (container.GetValue (pointer e out) w) /\
              snd (container.GetValue (pointer e out) w) = w.
Proof.
  intros Hp.
  assert (G : forall h out,
             container.Get (pointer e out) (set_heap h w)
             = (Returns (pointer e None, None), set_heap h w)).
  { intros h out. unfold pointer. rewrite Get_typed. cbv zeta.
    cbn [reflect.type_of reflect.kind_of recv set_heap].
    case_decide; [|congruence]. now rewrite Hp. }
  assert (G' : forall out, container.Get (pointer e out) w
                           = (Returns (pointer e None, None), w)).
  { intros out. specialize (G (heap w) out). now destruct w. }
  assert (E : fst (Get e w) = Returns (DPtr None, None)).
  { rewrite Get_generic_eq. cbv zeta. rewrite G. cbn. now case_decide. }
  split; [exact G'|]. split; [exact E|]. split.
  - unfold MustGet, bind. destruct (Get e w) as [r w']. cbn in E. now subst r.
  - intros out. rewrite GetValue_eq, G'.
    destruct (copy_from_nil_panics e (pointer e out) w) as [p ->].
    split; [eexists|]; reflexivity.
Qed.

Lemma nil_pointer_instance_witness :
  let w := snd (container.Register (pointer example.User None) example.w0) in
  fst (container.Register (pointer example.User None) example.w0) = Returns None /\
  fst (Get example.User w) = Returns (DPtr None, None) /\
  fst (MustGet example.User w) = Returns (DPtr None).
Proof.
  intros w. split; [vm_compute; reflexivity|].
  destruct (nil_pointer_instance example.User w) as (_ & A & B & _);
    [vm_compute; reflexivity|].
  split; assumption.
Defined.

(** ** When resolution succeeds and when it does not *)

(** X15: [GetValue] does succeed when there is something to copy: if
    [Get] resolves an instance that points to an allocated variable and the
    destination points to an allocated variable of the same type, [GetValue]
    returns nil, the destination holds the contents of the instance, and
    nothing else differs from the world [Get] leaves. *)
Theorem GetValue_succeeds
    (T : gotype) (a b : addr) (d d0 : data) (w w' : World) :
  container.Get (pointer T (Some a)) w
    = (Returns (pointer T (Some b), None), w') ->
  heap w' !! b = Some d ->
  heap w' !! a = Some d0 ->
  GetValue T (Some a) w = (Returns None, set_heap (<[a := d]> (heap w')) w').
Proof.
  intros G Hb Ha. unfold GetValue. rewrite GetValue_eq, G.
  unfold copy_instance, bind, on_heap, ret, pointer, set_heap. cbn.
  case_decide; [|congruence]. now rewrite Hb, Ha.
Qed.

Lemma GetValue_succeeds_witness :
  let w := set_heap (<[2%positive := zero example.User]> example.h0)
             example.w_john in
  GetValue example.User (Some 2%positive) w =
    (Returns None,
     set_heap (<[2%positive := DStruct [DInt 1%Z; DString "John"]]> (heap w)) w).
Proof.
  intros w.
  apply (GetValue_succeeds example.User 2%positive 1%positive
           (DStruct [DInt 1%Z; DString "John"]) (zero example.User) w w);
    vm_compute; reflexivity.
Defined.

(** X16: for an argument of pointer type, [Get] answers
    [ErrServiceNotFound] exactly when neither mapping has an entry for the
    type, and it succeeds without invoking a factory exactly when the
    instance mapping has one, which is then what it returns, the world
    unchanged. *)
Theorem ServiceNotFound_iff_unregistered (e : gotype) (d : data) (w : World) :
  let k := PtrT e in
  let out := Some (Data k d) in
  (fst (container.Get out w) = Returns (Nil, Some ErrServiceNotFound) <->
   providers (recv w) !! k = None /\ factories (recv w) !! k = None) /\
  (forall service w',
     container.Get out w = (Returns (service, None), w') /\ calls w' = calls w <->
     providers (recv w) !! k = Some service /\ w' = w).
Proof.
  intros k out. subst k out. rewrite Get_typed. cbv zeta.
  cbn [reflect.type_of reflect.kind_of]. case_decide; [|congruence].
  split.
  - destruct (providers _ !! _) as [s|].
    { split; [discriminate|]. intros [[=] _]. }
    destruct (factories _ !! _) as [f|]; [|now split].
    split; [|intros [_ [=]]].
    destruct (f _) as [[s|p] h]; discriminate.
  - intros service w'. destruct (providers _ !! _) as [s|].
    { split.
      - intros [[= -> ->] _]. now split.
      - intros [[= ->] ->]. now split. }
    split; [|intros [[=] _]].
    destruct (factories _ !! _) as [f|]; [|intros [[=] _]].
    destruct (f _) as [[s|p] h]; [|intros [[=] _]].
    intros [[= _ <-] C]. cbn in C. exfalso.
    apply (f_equal length) in C. cbn in C. lia.
Qed.
